(** * Scoring and blending engine of the dispatch-success predictor

    A shallow embedding of the numeric core of the repository:
    - [business_rules.py]: [DispatchBusinessRules] (category tables, rule-based
      probability) and [blend_probabilities];
    - [calculate_historical_grades.py]: [calculate_dispatch_grade];
    - [predict_current_dispatches.py], [predict.py]: [get_recommendation];
    - further: [calculate_probabilities] and [get_explanation] of the rules,
      [make_predictions] and [get_confidence], the column checks of
      [predict_batch] and [prepare_features], and the grade statistics of
      the historical script.

    The Python code computes with floats.  The functions are written once,
    over an interface [Num] of the arithmetic and comparisons they use, and
    read at two instances:
    - [R], the real numbers: a Python float is idealised as the real number it
      stands for; the quantified properties are proved at this instance;
    - [float], the kernel's IEEE 754 binary64 numbers, which are Python's
      floats: the functions that do not call [np.exp] are evaluated at this
      instance on the concrete inputs the specification names. *)

From Stdlib Require Import ZArith Bool List String Reals Lra.
From Stdlib Require Import Uint63 PrimFloat SpecFloat FloatOps FloatAxioms.
Import ListNotations.

Local Open Scope string_scope.

(** ** Numbers *)

Declare Scope num_scope.
Delimit Scope num_scope with num.

(** The operations of Python numbers that the code uses.  [lt_inf x] is the
    comparison [x < float('inf')]. *)
Class Num (T : Type) : Type := {
  of_Z : Z -> T;
  add : T -> T -> T;
  sub : T -> T -> T;
  mul : T -> T -> T;
  div : T -> T -> T;
  neg : T -> T;
  absolute : T -> T;
  eqb : T -> T -> bool;
  ltb : T -> T -> bool;
  leb : T -> T -> bool;
  lt_inf : T -> bool
}.

(** [np.exp]. *)
Class Exp (T : Type) : Type := {
  np_exp : T -> T
}.

Infix "+" := add : num_scope.
Infix "-" := sub : num_scope.
Infix "*" := mul : num_scope.
Infix "/" := div : num_scope.
Notation "- x" := (neg x) : num_scope.
Infix "==?" := eqb (at level 70, no associativity) : num_scope.
Infix "<?" := ltb : num_scope.
Infix "<=?" := leb : num_scope.
Notation "x >? y" := (ltb y x) (at level 70, no associativity) : num_scope.
Notation "x >=? y" := (leb y x) (at level 70, no associativity) : num_scope.

(** The real numbers. *)
#[global] Instance Num_R : Num R := {
  of_Z := IZR;
  add := Rplus;
  sub := Rminus;
  mul := Rmult;
  div := Rdiv;
  neg := Ropp;
  absolute := Rabs;
  eqb := fun x y => if Req_dec_T x y then true else false;
  ltb := fun x y => if Rlt_dec x y then true else false;
  leb := fun x y => if Rle_dec x y then true else false;
  lt_inf := fun _ => true
}.

#[global] Instance Exp_R : Exp R := {
  np_exp := exp
}.

(** IEEE 754 binary64.  An integer literal of the source is below [2^62], so
    its conversion goes through a 63-bit integer and is exact. *)
Definition float_of_Z (z : Z) : float :=
  match z with
  | Z0 => PrimFloat.zero
  | Zpos _ => PrimFloat.of_uint63 (Uint63.of_Z z)
  | Zneg p => PrimFloat.opp (PrimFloat.of_uint63 (Uint63.of_Z (Zpos p)))
  end.

#[global] Instance Num_float : Num float := {
  of_Z := float_of_Z;
  add := PrimFloat.add;
  sub := PrimFloat.sub;
  mul := PrimFloat.mul;
  div := PrimFloat.div;
  neg := PrimFloat.opp;
  absolute := PrimFloat.abs;
  eqb := PrimFloat.eqb;
  ltb := PrimFloat.ltb;
  leb := PrimFloat.leb;
  lt_inf := fun x => PrimFloat.ltb x PrimFloat.infinity
}.

(** ** Python values and builtins *)

(** The exceptions the modelled operations can raise. *)
Inductive exn : Type :=
| KeyError (key : string)
| TypeError
| ConfigurationError.

(** The result of a call: it returns a value or raises. *)
Inductive outcome (A : Type) : Type :=
| Returns (a : A)
| Raises (e : exn).

Arguments Returns {A} a.
Arguments Raises {A} e.

Definition bind {A B : Type} (c : outcome A) (k : A -> outcome B) : outcome B :=
  match c with
  | Returns a => k a
  | Raises e => Raises e
  end.

Notation "x <- c ;; k" := (bind c (fun x => k))
  (at level 61, c at next level, right associativity).

(** A [dict] with string keys, in insertion order. *)
Definition dict (V : Type) : Type := list (string * V).

(** [d[key]]. *)
Fixpoint dict_getitem {V : Type} (d : dict V) (key : string) : outcome V :=
  match d with
  | [] => Raises (KeyError key)
  | (k, v) :: rest => if String.eqb k key then Returns v else dict_getitem rest key
  end.

(** [d.get(key, default)]. *)
Fixpoint dict_get {V : Type} (d : dict V) (key : string) (default : V) : V :=
  match d with
  | [] => default
  | (k, v) :: rest => if String.eqb k key then v else dict_get rest key default
  end.

(** [row.get(name, default)] on a row whose field [name] is [field]. *)
Definition row_get {V : Type} (field : option V) (default : V) : V :=
  match field with
  | Some v => v
  | None => default
  end.

(** An upper bound of an interval: a number or [float('inf')]. *)
Inductive bound (T : Type) : Type :=
| Fin (x : T)
| Inf.

Arguments Fin {T} x.
Arguments Inf {T}.

Section Builtins.
Context {T : Type} `{Num T}.
Local Open Scope num_scope.

(** The literal [n/d] written in decimal in the source ([0.55] is
    [ratio 55 100]); at [float] the division rounds to the nearest double,
    which is the double the Python literal denotes. *)
Definition ratio (n d : Z) : T := of_Z n / of_Z d.

(** [x < b]. *)
Definition lt_bound (x : T) (b : bound T) : bool :=
  match b with
  | Fin u => x <? u
  | Inf => lt_inf x
  end.

(** The builtins [min(a, b)] and [max(a, b)]: the first argument is kept
    unless the second is strictly smaller (larger). *)
Definition py_min (a b : T) : T := if b <? a then b else a.
Definition py_max (a b : T) : T := if b >? a then b else a.

(** [np.clip(x, lo, hi)] is [minimum(maximum(x, lo), hi)], and a NaN [x]
    (the only number different from itself) is returned as it is. *)
Definition isnan (x : T) : bool := negb (x ==? x).
Definition np_maximum (a b : T) : T :=
  if isnan a then a else if a >? b then a else b.
Definition np_minimum (a b : T) : T :=
  if isnan a then a else if a <? b then a else b.
Definition np_clip (x lo hi : T) : T := np_minimum (np_maximum x lo) hi.

(** [a * b] where [a] may be [None]. *)
Definition mul_opt (a : option T) (b : T) : outcome T :=
  match a with
  | Some x => Returns (x * b)
  | None => Raises TypeError
  end.
End Builtins.

(** ** business_rules.py *)

(** The fields of a dispatch row that the rules read; a field the row does
    not have is [None]. *)
Record Row (T : Type) : Type := {
  skill_match : option T;
  workload_ratio : option T;
  distance : option T;
  priority : option string;
  ticket_type : option string
}.

Arguments skill_match {T} r.
Arguments workload_ratio {T} r.
Arguments distance {T} r.
Arguments priority {T} r.
Arguments ticket_type {T} r.

(** The attributes of a [DispatchBusinessRules] object. *)
Record DispatchBusinessRules (T : Type) : Type := {
  base_success_rate : T;
  skill_match_boost : T;
  skill_mismatch_penalty : T;
  workload_thresholds : dict (T * bound T);
  workload_adjustments : dict T;
  distance_thresholds : dict (T * bound T);
  distance_adjustments : dict T;
  priority_adjustments : dict T;
  ticket_type_adjustments : dict T
}.

Arguments base_success_rate {T} d.
Arguments skill_match_boost {T} d.
Arguments skill_mismatch_penalty {T} d.
Arguments workload_thresholds {T} d.
Arguments workload_adjustments {T} d.
Arguments distance_thresholds {T} d.
Arguments distance_adjustments {T} d.
Arguments priority_adjustments {T} d.
Arguments ticket_type_adjustments {T} d.

Section BusinessRules.
Context {T : Type} `{Num T}.
Local Open Scope num_scope.

(** [DispatchBusinessRules.__init__]. *)
Definition init : DispatchBusinessRules T := {|
  base_success_rate := ratio 55 100;
  skill_match_boost := ratio 37 100;
  skill_mismatch_penalty := - ratio 10 100;
  workload_thresholds :=
    [ ("low", (of_Z 0, Fin (ratio 5 10)));
      ("medium", (ratio 5 10, Fin (ratio 8 10)));
      ("high", (ratio 8 10, Fin (ratio 10 10)));
      ("overloaded", (ratio 10 10, Inf)) ];
  workload_adjustments :=
    [ ("low", ratio 32 100);
      ("medium", ratio 30 100);
      ("high", - ratio 10 100);
      ("overloaded", - ratio 30 100) ];
  distance_thresholds :=
    [ ("very_close", (of_Z 0, Fin (of_Z 10)));
      ("close", (of_Z 10, Fin (of_Z 50)));
      ("medium", (of_Z 50, Fin (of_Z 100)));
      ("far", (of_Z 100, Fin (of_Z 500)));
      ("very_far", (of_Z 500, Inf)) ];
  distance_adjustments :=
    [ ("very_close", ratio 33 100);
      ("close", ratio 5 100);
      ("medium", ratio 0 100);
      ("far", - ratio 12 100);
      ("very_far", - ratio 30 100) ];
  priority_adjustments :=
    [ ("Low", ratio 2 100);
      ("Normal", ratio 0 100);
      ("High", - ratio 2 100);
      ("Critical", - ratio 5 100) ];
  ticket_type_adjustments :=
    [ ("Order", ratio 2 100);
      ("Trouble", - ratio 3 100) ]
|}.

(** The loop of [get_workload_category] and of [get_distance_category]:
    [for category, (min_val, max_val) in thresholds.items()], returning at
    the first interval that holds the value, and [default] after the loop. *)
Fixpoint first_category (items : dict (T * bound T)) (value : T)
    (default : string) : string :=
  match items with
  | [] => default
  | (category, (min_val, max_val)) :: rest =>
      if (min_val <=? value) && lt_bound value max_val
      then category
      else first_category rest value default
  end.

Definition get_workload_category (self : DispatchBusinessRules T)
    (workload_ratio : T) : string :=
  first_category (workload_thresholds self) workload_ratio "medium".

Definition get_distance_category (self : DispatchBusinessRules T)
    (distance : T) : string :=
  first_category (distance_thresholds self) distance "medium".

Definition calculate_rule_based_probability (self : DispatchBusinessRules T)
    (row : Row T) : outcome T :=
  let prob := base_success_rate self in
  let prob :=
    if row_get (skill_match row) (of_Z 0) ==? of_Z 1
    then prob + skill_match_boost self
    else prob + skill_mismatch_penalty self in
  let workload_ratio := row_get (workload_ratio row) (ratio 5 10) in
  let workload_cat := get_workload_category self workload_ratio in
  adj <- dict_getitem (workload_adjustments self) workload_cat ;;
  let prob := prob + adj in
  let distance := row_get (distance row) (of_Z 50) in
  let distance_cat := get_distance_category self distance in
  adj <- dict_getitem (distance_adjustments self) distance_cat ;;
  let prob := prob + adj in
  let priority := row_get (priority row) "Normal" in
  let prob := prob + dict_get (priority_adjustments self) priority (ratio 0 10) in
  let ticket_type := row_get (ticket_type row) "Order" in
  let prob := prob + dict_get (ticket_type_adjustments self) ticket_type (ratio 0 10) in
  let prob := np_clip prob (ratio 0 10) (ratio 10 10) in
  Returns prob.

(** [blend_probabilities(ml_prob, rule_prob, rule_weight)]; the caller
    passes [rule_weight = 0.7] when it gives none. *)
Definition blend_probabilities (ml_prob rule_prob rule_weight : T) : outcome T :=
  Returns (rule_weight * rule_prob + (of_Z 1 - rule_weight) * ml_prob).

Definition default_rule_weight : T := ratio 7 10.
End BusinessRules.

Arguments init : clear implicits.
Arguments init T {_}.

(** ** calculate_historical_grades.py *)

Section Grades.
Context {T : Type} `{Num T} `{Exp T}.
Local Open Scope num_scope.

(** The distance score of [calculate_dispatch_grade] (30 points at most,
    exponential decay); [expf] is the exponential it calls. *)
Definition distance_score_with (expf : T -> T) (distance : T) : T :=
  let max_distance_for_zero := of_Z 250 in
  if distance >=? max_distance_for_zero then of_Z 0
  else
    let k := ratio 2 100 in
    let distance_score := of_Z 30 * expf (- k * distance) in
    py_max (of_Z 0) (py_min (of_Z 30) distance_score).

Definition distance_score (distance : T) : T :=
  distance_score_with np_exp distance.

(** The duration score: 30 points on time, a bonus for an early finish, a
    penalty for a late one. *)
Definition duration_score (overrun : T) : T :=
  if overrun <=? of_Z 0 then
    let bonus := py_min (of_Z 6) (absolute overrun / of_Z 30 * of_Z 6) in
    of_Z 30 + bonus
  else
    let penalty_rate := of_Z 30 / of_Z 90 in
    py_max (of_Z 0) (of_Z 30 - (overrun * penalty_rate)).

(** The test [use_probabilities and success_prob is not None]. *)
Definition probability_mode (use_probabilities : bool) (success_prob : option T) : bool :=
  use_probabilities &&
  match success_prob with
  | Some _ => true
  | None => false
  end.

(** The productive-dispatch score (25 points). *)
Definition productive_score (productive_dispatch : T) (use_probabilities : bool)
    (success_prob : option T) : outcome T :=
  if probability_mode use_probabilities success_prob
  then mul_opt success_prob (of_Z 25)
  else Returns (productive_dispatch * of_Z 25).

(** The first-time-fix score (15 points). *)
Definition ftf_score (first_time_fix : T) (use_probabilities : bool)
    (success_prob : option T) : outcome T :=
  if probability_mode use_probabilities success_prob
  then mul_opt success_prob (of_Z 15)
  else Returns (first_time_fix * of_Z 15).

(** [calculate_dispatch_grade(distance, overrun, productive_dispatch,
    first_time_fix, use_probabilities, success_prob)]; the two last arguments
    are [False] and [None] when the caller gives none. *)
Definition calculate_dispatch_grade (distance overrun productive_dispatch
    first_time_fix : T) (use_probabilities : bool) (success_prob : option T)
    : outcome T :=
  let grade := of_Z 0 in
  let grade := grade + distance_score distance in
  let grade := grade + duration_score overrun in
  productive <- productive_score productive_dispatch use_probabilities success_prob ;;
  let grade := grade + productive in
  ftf <- ftf_score first_time_fix use_probabilities success_prob ;;
  let grade := grade + ftf in
  let grade := py_min (of_Z 100) grade in
  Returns grade.
End Grades.

(** ** predict_current_dispatches.py and predict.py *)

(** The fields of a result row that [get_recommendation] reads. *)
Record ResultRow (T : Type) : Type := {
  success_probability : T;
  duration_difference : T;
  expected_duration : T
}.

Arguments success_probability {T} r.
Arguments duration_difference {T} r.
Arguments expected_duration {T} r.

Section Recommendation.
Context {T : Type} `{Num T}.
Local Open Scope num_scope.

(** The text of [f"{x:.0f}"]: Python's formatting of a number with no
    decimals, which the functions below only append to their messages. *)
Variable format_0f : T -> string.

(** The tier that [get_recommendation] of [predict_current_dispatches.py]
    assigns to [rec] from the probability. *)
Definition recommendation_tier (prob : T) : string :=
  if prob >=? ratio 8 10 then "PROCEED"
  else if prob >=? ratio 6 10 then "PROCEED WITH CAUTION"
  else if prob >=? ratio 4 10 then "REVIEW"
  else "DO NOT PROCEED".

(** The annotation [f" (Warning: +{duration_diff:.0f} min)"]. *)
Definition duration_warning (duration_diff : T) : string :=
  " (Warning: +" ++ format_0f duration_diff ++ " min)".

(** [get_recommendation(row)] of [predict_current_dispatches.py]. *)
Definition get_recommendation (row : ResultRow T) : string :=
  let prob := success_probability row in
  let duration_diff := duration_difference row in
  let rec := recommendation_tier prob in
  if duration_diff >? expected_duration row * ratio 3 10
  then rec ++ duration_warning duration_diff
  else rec.

(** The [recommendation] line that [DispatchPredictor.get_recommendation] of
    [predict.py] chooses from the probability. *)
Definition predictor_recommendation (prob : T) : string :=
  if prob >=? ratio 8 10 then
    "PROCEED - High probability of success"
  else if prob >=? ratio 6 10 then
    "PROCEED WITH CAUTION - Moderate probability of success"
  else if prob >=? ratio 4 10 then
    "REVIEW - Low probability of success, consider reassignment"
  else
    "DO NOT PROCEED - Very low probability of success, reassign dispatch".
End Recommendation.

(** ** The specification's formulas

    Definitions that follow the words of the specification, over the real
    numbers, for comparison with the functions above. *)

Local Open Scope R_scope.

(** Clipping to the unit interval. *)
Definition clip_unit_spec (x : R) : R := Rmin 1 (Rmax 0 x).

(** Workload buckets: low [0,0.5), medium [0.5,0.8), high [0.8,1.0),
    overloaded [1.0,inf); a value in no interval gets the default, medium. *)
Inductive workload_bucket : Type :=
| WLow | WMedium | WHigh | WOverloaded.

Definition workload_bucket_spec (w : R) : workload_bucket :=
  if Rlt_dec w 0 then WMedium
  else if Rlt_dec w 0.5 then WLow
  else if Rlt_dec w 0.8 then WMedium
  else if Rlt_dec w 1 then WHigh
  else WOverloaded.

Definition workload_adjustment_spec (b : workload_bucket) : R :=
  match b with
  | WLow => 0.32
  | WMedium => 0.30
  | WHigh => -0.10
  | WOverloaded => -0.30
  end.

(** Distance buckets: very_close [0,10), close [10,50), medium [50,100),
    far [100,500), very_far [500,inf); the default is medium. *)
Inductive distance_bucket : Type :=
| DVeryClose | DClose | DMedium | DFar | DVeryFar.

Definition distance_bucket_spec (d : R) : distance_bucket :=
  if Rlt_dec d 0 then DMedium
  else if Rlt_dec d 10 then DVeryClose
  else if Rlt_dec d 50 then DClose
  else if Rlt_dec d 100 then DMedium
  else if Rlt_dec d 500 then DFar
  else DVeryFar.

Definition distance_adjustment_spec (b : distance_bucket) : R :=
  match b with
  | DVeryClose => 0.33
  | DClose => 0.05
  | DMedium => 0
  | DFar => -0.12
  | DVeryFar => -0.30
  end.

(** Priority adjustment, 0 for an unknown priority. *)
Definition priority_adjustment_spec (p : string) : R :=
  if string_dec p "Low" then 0.02
  else if string_dec p "Normal" then 0
  else if string_dec p "High" then -0.02
  else if string_dec p "Critical" then -0.05
  else 0.

(** Ticket-type adjustment, 0 for an unknown type. *)
Definition ticket_type_adjustment_spec (t : string) : R :=
  if string_dec t "Order" then 0.02
  else if string_dec t "Trouble" then -0.03
  else 0.

(** The skill-match term: +0.37 if skill_match is 1, else -0.10. *)
Definition skill_term_spec (skill : option R) : R :=
  match skill with
  | Some v => if Req_dec_T v 1 then 0.37 else -0.10
  | None => -0.10
  end.

(** The rule-based probability of a row whose distance is [d]: the base rate
    and the five adjustments, clipped; a missing workload ratio is 0.5, a
    missing priority "Normal", a missing ticket type "Order". *)
Definition rule_probability_spec (skill workload : option R) (d : R)
    (prio ticket : option string) : R :=
  clip_unit_spec
    (0.55
     + skill_term_spec skill
     + workload_adjustment_spec
         (workload_bucket_spec (match workload with Some w => w | None => 0.5 end))
     + distance_adjustment_spec (distance_bucket_spec d)
     + priority_adjustment_spec (match prio with Some p => p | None => "Normal" end)
     + ticket_type_adjustment_spec (match ticket with Some t => t | None => "Order" end)).

(** The blender as the specification words it: a weight outside [0,1] is a
    configuration error. *)
Definition blend_probabilities_spec (ml_prob rule_prob rule_weight : R) : outcome R :=
  if Rle_dec 0 rule_weight then
    if Rle_dec rule_weight 1
    then Returns (rule_weight * rule_prob + (1 - rule_weight) * ml_prob)
    else Raises ConfigurationError
  else Raises ConfigurationError.

(** ** Inputs named by the specification *)

Section Scenarios.
Context {T : Type} `{Num T}.

(** skill_match=1, workload_ratio=0.4, distance=15, priority=Normal,
    ticket_type=Order. *)
Definition ideal_row : Row T := {|
  skill_match := Some (of_Z 1);
  workload_ratio := Some (ratio 4 10);
  distance := Some (of_Z 15);
  priority := Some "Normal";
  ticket_type := Some "Order"
|}.

(** skill_match=0, workload_ratio=1.2, distance=150, priority=Critical,
    ticket_type=Trouble. *)
Definition challenging_row : Row T := {|
  skill_match := Some (of_Z 0);
  workload_ratio := Some (ratio 12 10);
  distance := Some (of_Z 150);
  priority := Some "Critical";
  ticket_type := Some "Trouble"
|}.

(** The most adverse stack: skill mismatch, overloaded, very far, Critical,
    Trouble. *)
Definition adverse_row : Row T := {|
  skill_match := Some (of_Z 0);
  workload_ratio := Some (of_Z 2);
  distance := Some (of_Z 600);
  priority := Some "Critical";
  ticket_type := Some "Trouble"
|}.

(** A row with none of the fields. *)
Definition empty_row : Row T := {|
  skill_match := None;
  workload_ratio := None;
  distance := None;
  priority := None;
  ticket_type := None
|}.
End Scenarios.

Arguments ideal_row : clear implicits.
Arguments ideal_row T {_}.
Arguments challenging_row : clear implicits.
Arguments challenging_row T {_}.
Arguments adverse_row : clear implicits.
Arguments adverse_row T {_}.
Arguments empty_row : clear implicits.

(** ** The other functions of business_rules.py *)

(** [df.apply(f, axis=1)] and a list comprehension over rows: [f] on each
    row in order; the first exception ends the call. *)
Fixpoint apply_rows {A B : Type} (f : A -> outcome B) (df : list A) : outcome (list B) :=
  match df with
  | [] => Returns []
  | row :: rest =>
      b <- f row ;;
      bs <- apply_rows f rest ;;
      Returns (b :: bs)
  end.

(** [l.append(x)]. *)
Definition py_append {A : Type} (l : list A) (x : A) : list A := (l ++ [x])%list.

(** The character of the escape [\n]. *)
Definition newline : string := String (Ascii.ascii_of_nat 10) EmptyString.

Section Explanation.
Context {T : Type} `{Num T}.
Local Open Scope num_scope.

(** [DispatchBusinessRules.calculate_probabilities(df)]. *)
Definition calculate_probabilities (self : DispatchBusinessRules T)
    (df : list (Row T)) : outcome (list T) :=
  apply_rows (calculate_rule_based_probability self) df.

(** Python's formatting of a number: [f"{x:.0%}"], [f"{x:+.0%}"],
    [f"{x:.2f}"] and [f"{x:.1f}"].  The functions below only place these
    texts in their messages. *)
Variable format_pct : T -> string.
Variable format_signed_pct : T -> string.
Variable format_2f : T -> string.
Variable format_1f : T -> string.

(** The list [factors] that [get_explanation] builds, one [append] after
    the other. *)
Definition explanation_factors (self : DispatchBusinessRules T) (row : Row T)
    : outcome (list string) :=
  let factors := [] in
  let factors :=
    py_append factors ("Base rate: " ++ format_pct (base_success_rate self)) in
  let factors :=
    if row_get (skill_match row) (of_Z 0) ==? of_Z 1
    then py_append factors ("[+] Skill match: +" ++ format_pct (skill_match_boost self))
    else py_append factors ("[-] Skill mismatch: " ++ format_pct (skill_mismatch_penalty self)) in
  let workload_ratio := row_get (workload_ratio row) (ratio 5 10) in
  let workload_cat := get_workload_category self workload_ratio in
  adj <- dict_getitem (workload_adjustments self) workload_cat ;;
  let factors :=
    py_append factors ("Workload (" ++ workload_cat ++ ", " ++ format_2f workload_ratio
                    ++ "): " ++ format_signed_pct adj) in
  let distance := row_get (distance row) (of_Z 50) in
  let distance_cat := get_distance_category self distance in
  adj <- dict_getitem (distance_adjustments self) distance_cat ;;
  let factors :=
    py_append factors ("Distance (" ++ distance_cat ++ ", " ++ format_1f distance
                    ++ "km): " ++ format_signed_pct adj) in
  let priority := row_get (priority row) "Normal" in
  let adj := dict_get (priority_adjustments self) priority (ratio 0 10) in
  let factors :=
    if negb (adj ==? of_Z 0)
    then py_append factors ("Priority (" ++ priority ++ "): " ++ format_signed_pct adj)
    else factors in
  let ticket_type := row_get (ticket_type row) "Order" in
  let adj := dict_get (ticket_type_adjustments self) ticket_type (ratio 0 10) in
  let factors :=
    if negb (adj ==? of_Z 0)
    then py_append factors ("Type (" ++ ticket_type ++ "): " ++ format_signed_pct adj)
    else factors in
  final_prob <- calculate_rule_based_probability self row ;;
  let factors := py_append factors (newline ++ "=> Final: " ++ format_pct final_prob) in
  Returns factors.

End Explanation.

(** ** make_predictions of predict_current_dispatches.py *)

(** A row of the frame [df] that [make_predictions] receives: the fields the
    rules read, and [expected_duration]. *)
Record Dispatch (T : Type) : Type := {
  features : Row T;
  dispatch_expected_duration : T
}.

Arguments features {T} d.
Arguments dispatch_expected_duration {T} d.

(** What the two trained models return for a row: [success_model.predict],
    the second column of [success_model.predict_proba], and
    [duration_model.predict].  The models are external to this code. *)
Record ModelOutput (T : Type) : Type := {
  ml_success_prediction : Z;
  ml_success_probability : T;
  duration_prediction : T
}.

Arguments ml_success_prediction {T} m.
Arguments ml_success_probability {T} m.
Arguments duration_prediction {T} m.

(** The columns that [make_predictions] adds to the copy of [df]. *)
Record Predictions (T : Type) : Type := {
  col_success_prediction : list Z;
  col_success_probability : list T;
  col_failure_probability : list T;
  col_estimated_duration : list T;
  col_duration_difference : list T;
  col_recommendation : list string;
  col_confidence : list string
}.

Arguments col_success_prediction {T} p.
Arguments col_success_probability {T} p.
Arguments col_failure_probability {T} p.
Arguments col_estimated_duration {T} p.
Arguments col_duration_difference {T} p.
Arguments col_recommendation {T} p.
Arguments col_confidence {T} p.

Section MakePredictions.
Context {T : Type} `{Num T}.
Local Open Scope num_scope.

Variable format_0f : T -> string.

(** [get_confidence(row)]. *)
Definition get_confidence (row : ResultRow T) : string :=
  let prob := success_probability row in
  if prob >=? ratio 8 10 then "High"
  else if prob >=? ratio 6 10 then "Medium"
  else if prob >=? ratio 4 10 then "Low"
  else "Very Low".

(** The rows that [results.apply(..., axis=1)] passes on: the three columns
    that the two row functions read. *)
Definition result_rows (success_probabilities duration_differences
    expected_durations : list T) : list (ResultRow T) :=
  map (fun '(p, (diff, expected)) =>
         {| success_probability := p;
            duration_difference := diff;
            expected_duration := expected |})
      (combine success_probabilities
         (combine duration_differences expected_durations)).

(** [make_predictions(df, rule_weight, use_hybrid)] from the point where the
    models have answered; [scored] pairs each row of [df] with the models'
    outputs for it. *)
Definition make_predictions (scored : list (Dispatch T * ModelOutput T))
    (rule_weight : T) (use_hybrid : bool) : outcome (Predictions T) :=
  let df := map fst scored in
  let ml_success_predictions := map (fun s => ml_success_prediction (snd s)) scored in
  let ml_success_probabilities := map (fun s => ml_success_probability (snd s)) scored in
  let duration_predictions := map (fun s => duration_prediction (snd s)) scored in
  predicted <-
    (if use_hybrid then
       let rules := init T in
       rule_probabilities <- calculate_probabilities rules (map features df) ;;
       blended_probabilities <-
         apply_rows
           (fun '(ml_prob, rule_prob) => blend_probabilities ml_prob rule_prob rule_weight)
           (combine ml_success_probabilities rule_probabilities) ;;
       let success_probabilities := blended_probabilities in
       let success_predictions :=
         map (fun p => if p >=? ratio 5 10 then 1%Z else 0%Z) blended_probabilities in
       Returns (success_probabilities, success_predictions)
     else
       Returns (ml_success_probabilities, ml_success_predictions)) ;;
  let success_probabilities := fst predicted in
  let success_predictions := snd predicted in
  let expected_durations := map dispatch_expected_duration df in
  let failure_probabilities := map (fun p => of_Z 1 - p) success_probabilities in
  let duration_differences :=
    map (fun '(predicted_duration, expected) => predicted_duration - expected)
        (combine duration_predictions expected_durations) in
  let rows := result_rows success_probabilities duration_differences expected_durations in
  Returns {|
    col_success_prediction := success_predictions;
    col_success_probability := success_probabilities;
    col_failure_probability := failure_probabilities;
    col_estimated_duration := duration_predictions;
    col_duration_difference := duration_differences;
    col_recommendation := map (get_recommendation format_0f) rows;
    col_confidence := map get_confidence rows
  |}.
End MakePredictions.

(** ** Columns of a frame: predict.py, preprocessor.py and config.py *)

(** What these functions raise on the columns of a frame: the [ValueError]
    of [predict_batch] with its list [missing_cols], the [ValueError] of
    [prepare_features], and the [KeyError] of pandas for labels that are not
    columns. *)
Inductive frame_error : Type :=
| ValueError_missing_columns (missing_cols : list string)
| ValueError_no_features
| KeyError_columns (labels : list string).

Inductive checked (A : Type) : Type :=
| Ok (a : A)
| Failed (e : frame_error).

Arguments Ok {A} a.
Arguments Failed {A} e.

(** [FEATURE_COLUMNS] of config.py. *)
Definition FEATURE_COLUMNS : list string :=
  [ "ticket_type"; "order_type"; "priority"; "required_skill";
    "technician_skill"; "distance"; "expected_duration"; "skill_match";
    "workload_ratio" ].

(** [col in df.columns]. *)
Definition has_column (columns : list string) (col : string) : bool :=
  existsb (String.eqb col) columns.

(** [df[col] = ...]: a new column goes last, an existing one keeps its
    place. *)
Definition set_column (columns : list string) (col : string) : list string :=
  if has_column columns col then columns else (columns ++ [col])%list.

(** [df[labels]]: the frame of these columns, or [KeyError] with the labels
    that are not columns. *)
Definition select_columns (columns labels : list string) : checked (list string) :=
  match filter (fun col => negb (has_column columns col)) labels with
  | [] => Ok labels
  | absent => Failed (KeyError_columns absent)
  end.

(** [DispatchPredictor.predict_batch(dispatches)] up to the selection of the
    features: the columns of [dispatches] afterwards (the function adds
    [skill_match] to the caller's frame) and those of [features]. *)
Definition predict_batch_columns (columns : list string)
    : checked (list string * list string) :=
  let required_cols :=
    [ "ticket_type"; "order_type"; "priority"; "required_skill";
      "technician_skill"; "distance"; "expected_duration" ] in
  let missing_cols := filter (fun col => negb (has_column columns col)) required_cols in
  match missing_cols with
  | _ :: _ => Failed (ValueError_missing_columns missing_cols)
  | [] =>
      let columns :=
        if negb (has_column columns "skill_match")
        then set_column columns "skill_match"
        else columns in
      match select_columns columns FEATURE_COLUMNS with
      | Failed e => Failed e
      | Ok features => Ok (columns, features)
      end
  end.

(** [DataPreprocessor.create_features(df)] on the columns: [skill_match] is
    derived when it is absent and both skills are present, [distance_category]
    is cut from [df['distance']], and the interaction column needs
    [skill_match]. *)
Definition create_features_columns (columns : list string) : checked (list string) :=
  let columns :=
    if negb (has_column columns "skill_match") then
      if has_column columns "required_skill" && has_column columns "technician_skill"
      then set_column columns "skill_match"
      else columns
    else columns in
  if has_column columns "distance" then
    let columns := set_column columns "distance_category" in
    let columns :=
      if has_column columns "skill_match"
      then set_column columns "distance_skill_interaction"
      else columns in
    Ok columns
  else Failed (KeyError_columns ["distance"]).

(** [DataPreprocessor.prepare_features(df)] up to [X = df[available_features]]:
    the columns of [X]; [self.feature_columns] is [FEATURE_COLUMNS], as
    [__init__] sets it. *)
Definition prepare_features_columns (columns : list string) : checked (list string) :=
  match create_features_columns columns with
  | Failed e => Failed e
  | Ok columns =>
      let available_features := filter (has_column columns) FEATURE_COLUMNS in
      match available_features with
      | [] => Failed ValueError_no_features
      | _ :: _ => select_columns columns available_features
      end
  end.

(** The fields of a [DispatchRequest] of api.py: the keys of [d.dict()]. *)
Definition dispatch_request_fields : list string :=
  [ "ticket_type"; "order_type"; "priority"; "required_skill";
    "technician_skill"; "distance"; "expected_duration" ].

(** The columns of [pd.DataFrame(records)] for a list of dicts, each given by
    its keys: the keys in the order of their first appearance, and no column
    at all for an empty list. *)
Definition dataframe_columns (records : list (list string)) : list string :=
  fold_left (fun columns keys => fold_left set_column keys columns) records [].

(** The columns of the frame that the batch endpoint of api.py builds,
    [pd.DataFrame([d.dict() for d in request.dispatches])], for a request
    that lists [n] dispatches. *)
Definition api_batch_columns (n : nat) : list string :=
  dataframe_columns (repeat dispatch_request_fields n).

(** The columns of the frame of [example_batch_prediction]. *)
Definition example_batch_columns : list string :=
  [ "dispatch_id"; "distance"; "skill_match"; "technician_name" ].

(** ** The statistics of calculate_historical_grades.py *)

(** The fields of a row of the historical frame that the script grades. *)
Record HistoricalRow (T : Type) : Type := {
  hist_distance : T;
  hist_overrun : T;
  hist_productive_dispatch : T;
  hist_first_time_fix : T
}.

Arguments hist_distance {T} _.
Arguments hist_overrun {T} _.
Arguments hist_productive_dispatch {T} _.
Arguments hist_first_time_fix {T} _.

Section HistoricalGrades.
Context {T : Type} `{Num T} `{Exp T}.
Local Open Scope num_scope.

(** The loop [for _, row in df.iterrows(): grades.append(
    calculate_dispatch_grade(..., use_probabilities=False))]. *)
Definition historical_grades (df : list (HistoricalRow T)) : outcome (list T) :=
  apply_rows
    (fun row =>
       calculate_dispatch_grade (hist_distance row) (hist_overrun row)
         (hist_productive_dispatch row) (hist_first_time_fix row) false None)
    df.

(** [(mask).sum()] for the mask of a condition on a column. *)
Definition count_where (condition : T -> bool) (column : list T) : nat :=
  List.length (filter condition column).

(** The five counts of the grade distribution: A (90 and more), B (80 to
    90), C (70 to 80), D (60 to 70) and F (under 60). *)
Definition grade_distribution (grades : list T) : nat * nat * nat * nat * nat :=
  ( count_where (fun g => g >=? of_Z 90) grades,
    count_where (fun g => (g >=? of_Z 80) && (g <? of_Z 90)) grades,
    count_where (fun g => (g >=? of_Z 70) && (g <? of_Z 80)) grades,
    count_where (fun g => (g >=? of_Z 60) && (g <? of_Z 70)) grades,
    count_where (fun g => g <? of_Z 60) grades ).

(** The scores that the component breakdown recomputes for a row, inline. *)
Definition breakdown_scores (row : HistoricalRow T) : T * T * T * T :=
  let distance := hist_distance row in
  let distance_score :=
    if distance >=? of_Z 250 then of_Z 0
    else
      let k := ratio 2 100 in
      let distance_score := of_Z 30 * np_exp (- k * distance) in
      py_max (of_Z 0) (py_min (of_Z 30) distance_score) in
  let overrun := hist_overrun row in
  let duration_score :=
    if overrun <=? of_Z 0 then
      let bonus := py_min (of_Z 6) (absolute overrun / of_Z 30 * of_Z 6) in
      of_Z 30 + bonus
    else
      let penalty_rate := of_Z 30 / of_Z 90 in
      py_max (of_Z 0) (of_Z 30 - (overrun * penalty_rate)) in
  (distance_score, duration_score,
   hist_productive_dispatch row * of_Z 25,
   hist_first_time_fix row * of_Z 15).
End HistoricalGrades.

(** ** The row-wise reading of make_predictions

    What [make_predictions] returns, written row by row over the reals, for
    comparison with the column operations of the function. *)

(** The blended probability of a row: the rule-based probability of its
    features and the model's probability, weighted. *)
Definition hybrid_probability_spec (rule_weight : R)
    (s : Dispatch R * ModelOutput R) : R :=
  let row := features (fst s) in
  rule_weight
  * rule_probability_spec (skill_match row) (workload_ratio row)
      (row_get (distance row) 50) (priority row) (ticket_type row)
  + (1 - rule_weight) * ml_success_probability (snd s).

(** The prediction read off a probability: 1 from 0.5 on. *)
Definition threshold_prediction_spec (p : R) : Z :=
  if Rle_dec 0.5 p then 1%Z else 0%Z.

(** The row that the two labelling functions see. *)
Definition result_row_spec (probability : Dispatch R * ModelOutput R -> R)
    (s : Dispatch R * ModelOutput R) : ResultRow R :=
  {| success_probability := probability s;
     duration_difference :=
       duration_prediction (snd s) - dispatch_expected_duration (fst s);
     expected_duration := dispatch_expected_duration (fst s) |}.

(** The columns as images of the rows. *)
Definition predictions_spec (format_0f : R -> string)
    (probability : Dispatch R * ModelOutput R -> R)
    (prediction : Dispatch R * ModelOutput R -> Z)
    (scored : list (Dispatch R * ModelOutput R)) : Predictions R :=
  {| col_success_prediction := map prediction scored;
     col_success_probability := map probability scored;
     col_failure_probability := map (fun s => 1 - probability s) scored;
     col_estimated_duration := map (fun s => duration_prediction (snd s)) scored;
     col_duration_difference :=
       map (fun s => duration_difference (result_row_spec probability s)) scored;
     col_recommendation :=
       map (fun s => get_recommendation format_0f (result_row_spec probability s)) scored;
     col_confidence :=
       map (fun s => get_confidence (result_row_spec probability s)) scored |}.

(** ** Rows with None cells

    A cell of a frame can hold [None]: [row.get] returns it as it is, and the
    comparison of a number with [None] raises [TypeError].  The functions of
    the rules once more, on rows whose cells are a value, [None], or absent. *)

Inductive cell (V : Type) : Type :=
| Value (v : V)
| NoneCell.

Arguments Value {V} v.
Arguments NoneCell {V}.

Record CellRow (T : Type) : Type := {
  cell_skill_match : option (cell T);
  cell_workload_ratio : option (cell T);
  cell_distance : option (cell T);
  cell_priority : option (cell string);
  cell_ticket_type : option (cell string)
}.

Arguments cell_skill_match {T} _.
Arguments cell_workload_ratio {T} _.
Arguments cell_distance {T} _.
Arguments cell_priority {T} _.
Arguments cell_ticket_type {T} _.

Section Cells.
Context {T : Type} `{Num T}.
Local Open Scope num_scope.

(** [c == 1]; [None == 1] is [False]. *)
Definition cell_is_one (c : cell T) : bool :=
  match c with
  | Value x => x ==? of_Z 1
  | NoneCell => false
  end.

(** The loop of the two category functions on a cell: on [None] the first
    comparison, [min_val <= value], raises. *)
Fixpoint first_category_cell (items : dict (T * bound T)) (value : cell T)
    (default : string) : outcome string :=
  match items with
  | [] => Returns default
  | (category, (min_val, max_val)) :: rest =>
      match value with
      | NoneCell => Raises TypeError
      | Value x =>
          if (min_val <=? x) && lt_bound x max_val
          then Returns category
          else first_category_cell rest value default
      end
  end.

(** [d.get(key, default)] where the key may be [None], which is no key of a
    table. *)
Definition dict_get_cell {V : Type} (d : dict V) (key : cell string) (default : V) : V :=
  match key with
  | Value k => dict_get d k default
  | NoneCell => default
  end.

(** [calculate_rule_based_probability(row)] on a row of cells. *)
Definition calculate_rule_based_probability_cells (self : DispatchBusinessRules T)
    (row : CellRow T) : outcome T :=
  let prob := base_success_rate self in
  let prob :=
    if cell_is_one (row_get (cell_skill_match row) (Value (of_Z 0)))
    then prob + skill_match_boost self
    else prob + skill_mismatch_penalty self in
  let workload_ratio := row_get (cell_workload_ratio row) (Value (ratio 5 10)) in
  workload_cat <- first_category_cell (workload_thresholds self) workload_ratio "medium" ;;
  adj <- dict_getitem (workload_adjustments self) workload_cat ;;
  let prob := prob + adj in
  let distance := row_get (cell_distance row) (Value (of_Z 50)) in
  distance_cat <- first_category_cell (distance_thresholds self) distance "medium" ;;
  adj <- dict_getitem (distance_adjustments self) distance_cat ;;
  let prob := prob + adj in
  let priority := row_get (cell_priority row) (Value "Normal") in
  let prob := prob + dict_get_cell (priority_adjustments self) priority (ratio 0 10) in
  let ticket_type := row_get (cell_ticket_type row) (Value "Order") in
  let prob := prob + dict_get_cell (ticket_type_adjustments self) ticket_type (ratio 0 10) in
  let prob := np_clip prob (ratio 0 10) (ratio 10 10) in
  Returns prob.

(** [calculate_probabilities(df)] on a frame of such rows. *)
Definition calculate_probabilities_cells (self : DispatchBusinessRules T)
    (df : list (CellRow T)) : outcome (list T) :=
  apply_rows (calculate_rule_based_probability_cells self) df.

Variable format_pct : T -> string.
Variable format_signed_pct : T -> string.
Variable format_2f : T -> string.
Variable format_1f : T -> string.




End Cells.

(** The row of numbers and texts that a row of cells stands for when its
    workload and distance cells are not [None]: a [None] skill is a skill
    that is not 1, and a [None] text is a text that is no key of a table. *)
Definition number_of_cell (c : cell R) : R :=
  match c with
  | Value x => x
  | NoneCell => 0
  end.

Definition text_key_of_cell (c : cell string) : string :=
  match c with
  | Value s => s
  | NoneCell => ""
  end.

Definition typed_row (row : CellRow R) : Row R :=
  {| skill_match := option_map number_of_cell (cell_skill_match row);
     workload_ratio := option_map number_of_cell (cell_workload_ratio row);
     distance := option_map number_of_cell (cell_distance row);
     priority := option_map text_key_of_cell (cell_priority row);
     ticket_type := option_map text_key_of_cell (cell_ticket_type row) |}.

(** A row whose workload or distance cell holds [None]. *)
Definition has_none_cell {T : Type} (row : CellRow T) : Prop :=
  cell_workload_ratio row = Some NoneCell \/ cell_distance row = Some NoneCell.

(** ** Reasoning at the real numbers *)

(** The operations of [Num_R] and [Exp_R] are those of [R]. *)
Ltac num_R :=
  cbn [of_Z add sub mul div neg absolute eqb ltb leb lt_inf Num_R np_exp Exp_R] in *.

(** Case analysis on every comparison of the goal and of the hypotheses,
    closing the branches that linear arithmetic settles. *)
Ltac r_cases :=
  repeat match goal with
  | |- context [Rle_dec ?a ?b] => destruct (Rle_dec a b)
  | |- context [Rlt_dec ?a ?b] => destruct (Rlt_dec a b)
  | |- context [Req_dec_T ?a ?b] => destruct (Req_dec_T a b); cbn [negb]
  | _ : context [Rle_dec ?a ?b] |- _ => destruct (Rle_dec a b)
  | _ : context [Rlt_dec ?a ?b] |- _ => destruct (Rlt_dec a b)
  end;
  try reflexivity; try lra.

Lemma py_min_R (a b : R) : py_min a b = Rmin a b.
Proof.
  unfold py_min, Rmin. num_R. r_cases.
Qed.

Lemma py_max_R (a b : R) : py_max a b = Rmax a b.
Proof.
  unfold py_max, Rmax. num_R. r_cases.
Qed.

Lemma np_maximum_R (a b : R) : np_maximum a b = Rmax a b.
Proof.
  unfold np_maximum, isnan, Rmax. num_R. r_cases.
Qed.

Lemma np_minimum_R (a b : R) : np_minimum a b = Rmin a b.
Proof.
  unfold np_minimum, isnan, Rmin. num_R. r_cases.
Qed.

Lemma np_clip_R (x lo hi : R) : np_clip x lo hi = Rmin (Rmax x lo) hi.
Proof.
  unfold np_clip. rewrite np_maximum_R, np_minimum_R. reflexivity.
Qed.

Lemma np_clip_unit (x : R) : np_clip x (ratio 0 10) (ratio 10 10) = clip_unit_spec x.
Proof.
  rewrite np_clip_R. unfold clip_unit_spec, ratio. num_R.
  replace (0 / 10) with 0 by lra. replace (10 / 10) with 1 by lra.
  rewrite Rmin_comm, (Rmax_comm x 0). reflexivity.
Qed.

Lemma clip_unit_spec_range (x : R) : 0 <= clip_unit_spec x <= 1.
Proof.
  unfold clip_unit_spec, Rmin, Rmax. r_cases.
Qed.

(** *** Category tables *)

(** A value that no interval of a table holds gets the default label. *)
Lemma first_category_no_match {T : Type} `{Num T} (items : dict (T * bound T))
    (x : T) (default : string) :
  Forall (fun entry => (fst (snd entry) <=? x)%num && lt_bound x (snd (snd entry)) = false)
    items ->
  first_category items x default = default.
Proof.
  induction 1 as [| [category [lo hi]] rest Hhd _ IH]; simpl in *.
  - reflexivity.
  - rewrite Hhd. exact IH.
Qed.

(** The label returned is that of the first interval that holds the value. *)
Lemma first_category_first_match {T : Type} `{Num T}
    (before after : dict (T * bound T))
    (category : string) (lo : T) (hi : bound T) (x : T) (default : string) :
  Forall (fun entry => (fst (snd entry) <=? x)%num && lt_bound x (snd (snd entry)) = false)
    before ->
  (lo <=? x)%num && lt_bound x hi = true ->
  first_category (before ++ (category, (lo, hi)) :: after)%list x default = category.
Proof.
  intros Hbefore Hin.
  induction Hbefore as [| [c [l h]] rest Hhd _ IH]; simpl in *.
  - rewrite Hin. reflexivity.
  - rewrite Hhd. exact IH.
Qed.

Lemma get_workload_category_spec (w : R) :
  get_workload_category (init R) w =
  match workload_bucket_spec w with
  | WLow => "low"
  | WMedium => "medium"
  | WHigh => "high"
  | WOverloaded => "overloaded"
  end.
Proof.
  unfold get_workload_category, workload_bucket_spec. simpl.
  unfold ratio. num_R. r_cases.
Qed.

Lemma get_distance_category_spec (d : R) :
  get_distance_category (init R) d =
  match distance_bucket_spec d with
  | DVeryClose => "very_close"
  | DClose => "close"
  | DMedium => "medium"
  | DFar => "far"
  | DVeryFar => "very_far"
  end.
Proof.
  unfold get_distance_category, distance_bucket_spec. simpl.
  unfold ratio. num_R. r_cases.
Qed.

(** C7. [get_workload_category] and [get_distance_category] are total: every
    real input gets one of the labels of the table.  A non-negative input gets
    the label of the half-open interval [lower, upper) that holds it, so a
    boundary value belongs to the interval it starts; an input that no
    interval holds (a negative one) gets the default label, "medium". *)
Theorem category_total_half_open (x : R) :
  (In (get_workload_category (init R) x) ["low"; "medium"; "high"; "overloaded"]
   /\ (0 <= x < 0.5 -> get_workload_category (init R) x = "low")
   /\ (0.5 <= x < 0.8 -> get_workload_category (init R) x = "medium")
   /\ (0.8 <= x < 1 -> get_workload_category (init R) x = "high")
   /\ (1 <= x -> get_workload_category (init R) x = "overloaded")
   /\ (x < 0 -> get_workload_category (init R) x = "medium"))
  /\
  (In (get_distance_category (init R) x)
      ["very_close"; "close"; "medium"; "far"; "very_far"]
   /\ (0 <= x < 10 -> get_distance_category (init R) x = "very_close")
   /\ (10 <= x < 50 -> get_distance_category (init R) x = "close")
   /\ (50 <= x < 100 -> get_distance_category (init R) x = "medium")
   /\ (100 <= x < 500 -> get_distance_category (init R) x = "far")
   /\ (500 <= x -> get_distance_category (init R) x = "very_far")
   /\ (x < 0 -> get_distance_category (init R) x = "medium")).
Proof.
  rewrite get_workload_category_spec, get_distance_category_spec.
  unfold workload_bucket_spec, distance_bucket_spec.
  split.
  - repeat split; try intros Hx; r_cases; simpl; tauto.
  - repeat split; try intros Hx; r_cases; simpl; tauto.
Qed.

(** *** Rule-based probability *)

(** The indexing [workload_adjustments[workload_cat]] never raises: every
    label that [get_workload_category] returns is a key of the table. *)
Lemma workload_adjustment_lookup (w : R) :
  dict_getitem (workload_adjustments (init R)) (get_workload_category (init R) w) =
  Returns (workload_adjustment_spec (workload_bucket_spec w)).
Proof.
  rewrite get_workload_category_spec.
  destruct (workload_bucket_spec w); simpl; unfold ratio; num_R; f_equal; lra.
Qed.

Lemma distance_adjustment_lookup (d : R) :
  dict_getitem (distance_adjustments (init R)) (get_distance_category (init R) d) =
  Returns (distance_adjustment_spec (distance_bucket_spec d)).
Proof.
  rewrite get_distance_category_spec.
  destruct (distance_bucket_spec d); simpl; unfold ratio; num_R; f_equal; lra.
Qed.

(** [String.eqb] against a key that differs. *)
Ltac key_differs :=
  repeat match goal with
  | Hne : ?p <> ?k |- context [String.eqb ?k ?p] =>
      replace (String.eqb k p) with false
        by (symmetry; apply String.eqb_neq; congruence)
  end.

(** Case analysis on the comparisons of strings of the goal. *)
Ltac string_cases :=
  repeat match goal with
  | |- context [string_dec ?a ?b] =>
      destruct (string_dec a b); try discriminate; try congruence
  end.

Lemma priority_adjustment_lookup (p : string) :
  dict_get (priority_adjustments (init R)) p (ratio 0 10) = priority_adjustment_spec p.
Proof.
  unfold priority_adjustment_spec.
  cbn [priority_adjustments init dict_get].
  repeat destruct (string_dec p _) as [-> | ?]; key_differs; simpl;
    unfold ratio; num_R; lra.
Qed.

Lemma ticket_type_adjustment_lookup (t : string) :
  dict_get (ticket_type_adjustments (init R)) t (ratio 0 10) = ticket_type_adjustment_spec t.
Proof.
  unfold ticket_type_adjustment_spec.
  cbn [ticket_type_adjustments init dict_get].
  repeat destruct (string_dec t _) as [-> | ?]; key_differs; simpl;
    unfold ratio; num_R; lra.
Qed.

Lemma skill_term_lookup (skill : option R) :
  (if (row_get skill (of_Z 0) ==? of_Z 1)%num
   then (base_success_rate (init R) + skill_match_boost (init R))%num
   else (base_success_rate (init R) + skill_mismatch_penalty (init R))%num) =
  0.55 + skill_term_spec skill.
Proof.
  unfold skill_term_spec, row_get. simpl. unfold ratio. num_R.
  destruct skill as [v |]; r_cases.
Qed.

(** On every row the function returns the clipped sum; a row without a
    distance is scored at 50. *)
Lemma calculate_rule_based_probability_returns (row : Row R) :
  calculate_rule_based_probability (init R) row =
  Returns (rule_probability_spec (skill_match row) (workload_ratio row)
             (row_get (distance row) 50) (priority row) (ticket_type row)).
Proof.
  unfold calculate_rule_based_probability, rule_probability_spec.
  rewrite workload_adjustment_lookup. cbn [bind].
  rewrite distance_adjustment_lookup. cbn [bind].
  rewrite priority_adjustment_lookup, ticket_type_adjustment_lookup.
  rewrite skill_term_lookup, np_clip_unit.
  unfold row_get, ratio. num_R.
  replace (5 / 10) with 0.5 by lra.
  reflexivity.
Qed.

(** C1. On every row that has a distance, [calculate_rule_based_probability]
    returns the base rate 0.55 plus the skill term (+0.37 if skill_match is 1,
    else -0.10), the workload, distance, priority and ticket-type adjustments
    (0 for an unknown priority or type), clipped to [0,1]; a missing workload
    ratio counts as 0.5, a missing priority as "Normal", a missing ticket type
    as "Order".  On skill_match=1, workload_ratio=0.4, distance=15,
    priority=Normal, ticket_type=Order it returns exactly 1. *)
Theorem rule_probability_formula :
  (forall (row : Row R) (d : R),
     distance row = Some d ->
     calculate_rule_based_probability (init R) row =
     Returns (rule_probability_spec (skill_match row) (workload_ratio row) d
                (priority row) (ticket_type row)))
  /\ calculate_rule_based_probability (init R) (ideal_row R) = Returns 1.
Proof.
  split.
  - intros row d Hd. rewrite calculate_rule_based_probability_returns, Hd.
    reflexivity.
  - rewrite calculate_rule_based_probability_returns. f_equal.
    unfold rule_probability_spec, ideal_row. cbn [skill_match workload_ratio
      distance priority ticket_type row_get].
    unfold ratio. num_R.
    unfold skill_term_spec, workload_bucket_spec, distance_bucket_spec.
    unfold priority_adjustment_spec, ticket_type_adjustment_spec.
    r_cases. string_cases.
    unfold workload_adjustment_spec, distance_adjustment_spec.
    unfold clip_unit_spec, Rmin, Rmax. r_cases.
Qed.

(** C9. On every row, whatever fields are present, missing or extreme, the
    value that [calculate_rule_based_probability] returns lies in [0,1]; so
    it does on the most adverse stack (skill mismatch, overloaded, very far,
    Critical, Trouble), where it is 0. *)
Theorem rule_probability_in_unit_interval :
  (forall row : Row R,
     exists p : R,
       calculate_rule_based_probability (init R) row = Returns p /\ 0 <= p <= 1)
  /\ calculate_rule_based_probability (init R) (adverse_row R) = Returns 0.
Proof.
  split.
  - intros row. eexists. split.
    + apply calculate_rule_based_probability_returns.
    + apply clip_unit_spec_range.
  - rewrite calculate_rule_based_probability_returns. f_equal.
    unfold rule_probability_spec, adverse_row. cbn [skill_match workload_ratio
      distance priority ticket_type row_get].
    unfold ratio. num_R.
    unfold skill_term_spec, workload_bucket_spec, distance_bucket_spec.
    unfold priority_adjustment_spec, ticket_type_adjustment_spec.
    r_cases. string_cases.
    unfold workload_adjustment_spec, distance_adjustment_spec.
    unfold clip_unit_spec, Rmin, Rmax. r_cases.
Qed.

(** *** Blending *)

(** C8. [blend_probabilities] computes
    rule_weight * rule_prob + (1 - rule_weight) * ml_prob; with weight 1 it
    returns rule_prob and with weight 0 it returns ml_prob, whatever the two
    probabilities. *)
Theorem blend_convex_combination (ml_prob rule_prob rule_weight : R) :
  blend_probabilities ml_prob rule_prob rule_weight =
    Returns (rule_weight * rule_prob + (1 - rule_weight) * ml_prob)
  /\ blend_probabilities ml_prob rule_prob 1 = Returns rule_prob
  /\ blend_probabilities ml_prob rule_prob 0 = Returns ml_prob.
Proof.
  unfold blend_probabilities. num_R.
  repeat split; f_equal; ring.
Qed.

(** C2, counterexample.  A weight of 2 is not rejected: the call returns
    2 * 1 + (1 - 2) * 0 = 2, where the blender of the specification raises. *)
Lemma blend_weight_two_not_rejected :
  blend_probabilities (T := R) 0 1 2 = Returns 2
  /\ blend_probabilities_spec 0 1 2 = Raises ConfigurationError
  /\ ~ (forall ml_prob rule_prob rule_weight : R,
          ~ 0 <= rule_weight <= 1 ->
          exists e, blend_probabilities ml_prob rule_prob rule_weight = Raises e).
Proof.
  split; [| split].
  - unfold blend_probabilities. num_R. f_equal. ring.
  - unfold blend_probabilities_spec. r_cases.
  - intros Hrejects.
    destruct (Hrejects 0 1 2) as [e He]; [lra |].
    unfold blend_probabilities in He. discriminate He.
Qed.

(** C2, as the code has it.  [blend_probabilities] does not check its
    weight: for every weight, in [0,1] or not, it returns
    rule_weight * rule_prob + (1 - rule_weight) * ml_prob, neither raising
    nor clamping.  It agrees with the checking blender of the specification
    exactly when the weight is in [0,1]. *)
Theorem blend_weight_unchecked (ml_prob rule_prob rule_weight : R) :
  blend_probabilities ml_prob rule_prob rule_weight =
    Returns (rule_weight * rule_prob + (1 - rule_weight) * ml_prob)
  /\ (blend_probabilities ml_prob rule_prob rule_weight =
      blend_probabilities_spec ml_prob rule_prob rule_weight
      <-> 0 <= rule_weight <= 1).
Proof.
  unfold blend_probabilities, blend_probabilities_spec. num_R.
  split; [reflexivity |].
  split.
  - intros Heq. r_cases; discriminate Heq.
  - intros Hw. r_cases.
Qed.

(** *** Grades *)

(** The decay factor is positive, at most 1 from distance 0 on, and strictly
    decreasing. *)
Lemma decay_pos (d : R) : 0 < exp (- (2 / 100) * d).
Proof. apply exp_pos. Qed.

Lemma decay_le_1 (d : R) : 0 <= d -> exp (- (2 / 100) * d) <= 1.
Proof.
  intros Hd. rewrite <- exp_0.
  destruct (Req_dec_T d 0) as [-> | Hne].
  - right. f_equal. lra.
  - left. apply exp_increasing. lra.
Qed.

Lemma decay_decreasing (d1 d2 : R) :
  d1 < d2 -> exp (- (2 / 100) * d2) < exp (- (2 / 100) * d1).
Proof.
  intros Hlt. apply exp_increasing. lra.
Qed.

(** From 250 km on the score is the constant 0, whatever the exponential. *)
Lemma distance_score_with_far (expf : R -> R) (d : R) :
  250 <= d -> distance_score_with expf d = 0.
Proof.
  intros Hd. unfold distance_score_with. num_R. r_cases.
Qed.

(** Below 250 km and from 0 on, the clamp leaves the decay as it is. *)
Lemma distance_score_near (d : R) :
  0 <= d < 250 -> distance_score d = 30 * exp (- (2 / 100) * d).
Proof.
  intros [Hlo Hhi]. unfold distance_score, distance_score_with.
  rewrite py_max_R, py_min_R. unfold ratio. num_R.
  destruct (Rle_dec 250 d) as [Hfar | _]; [lra |].
  pose proof (decay_pos d) as Hpos. pose proof (decay_le_1 d Hlo) as Hle.
  rewrite Rmin_right by lra. rewrite Rmax_right by lra. reflexivity.
Qed.

Lemma distance_score_range (d : R) : 0 <= distance_score d <= 30.
Proof.
  unfold distance_score, distance_score_with.
  rewrite py_max_R, py_min_R. num_R.
  destruct (Rle_dec 250 d) as [_ | _]; [lra |].
  unfold Rmax, Rmin. r_cases.
Qed.

(** In binary64 no number is smaller than itself. *)
Lemma float_ltb_irreflexive (x : float) : PrimFloat.ltb x x = false.
Proof.
  rewrite ltb_spec. unfold SFltb, SFcompare.
  destruct (Prim2SF x) as [sg | sg | | sg m e]; try reflexivity.
  - destruct sg; reflexivity.
  - destruct sg; rewrite Z.compare_refl.
    + unfold CompOpp. rewrite Pos.compare_cont_refl. reflexivity.
    + rewrite Pos.compare_cont_refl. reflexivity.
Qed.

(** Rounding: 1.75 and the next double have the same product with -0.02, so
    they get the same distance score, whatever the exponential returns. *)
Lemma distance_score_with_plateau (expf : float -> float) :
  distance_score_with expf 1.75%float =
  distance_score_with expf (PrimFloat.next_up 1.75).
Proof. vm_compute. reflexivity. Qed.

(** C4, counterexample.  In binary64, the arithmetic of the program, the
    distance score is not strictly decreasing on [0,250): 1.75 and the next
    double are two distances of that interval with the same score, whatever
    [np.exp] computes, so the score of the larger one is not smaller. *)
Lemma distance_score_not_strict_binary64 :
  PrimFloat.leb 0 1.75 = true
  /\ PrimFloat.ltb 1.75 (PrimFloat.next_up 1.75) = true
  /\ PrimFloat.ltb (PrimFloat.next_up 1.75) 250 = true
  /\ (forall E : Exp float,
        distance_score 1.75%float = distance_score (PrimFloat.next_up 1.75)
        /\ PrimFloat.ltb (distance_score (PrimFloat.next_up 1.75))
             (distance_score 1.75%float) = false)
  /\ ~ (exists E : Exp float,
          forall d1 d2 : float,
            PrimFloat.leb 0 d1 = true ->
            PrimFloat.ltb d1 d2 = true ->
            PrimFloat.ltb d2 250 = true ->
            PrimFloat.ltb (distance_score d2) (distance_score d1) = true).
Proof.
  assert (Hsame : forall E : Exp float,
            distance_score 1.75%float = distance_score (PrimFloat.next_up 1.75)).
  { intros E. unfold distance_score. apply distance_score_with_plateau. }
  split; [reflexivity |]. split; [reflexivity |]. split; [reflexivity |].
  split.
  - intros E. split; [apply Hsame |].
    rewrite <- (Hsame E). apply float_ltb_irreflexive.
  - intros [E Hstrict].
    specialize (Hstrict 1.75%float (PrimFloat.next_up 1.75)
                  eq_refl eq_refl eq_refl).
    rewrite <- (Hsame E), float_ltb_irreflexive in Hstrict.
    discriminate Hstrict.
Qed.

(** C4, as the code has it.  The distance score is exactly 0 for every
    distance from 250 on, at every number type and whatever the exponential
    function is (that branch does not call it); for a distance in [0,250) it
    is 30 * exp(-0.02 * distance) clamped to [0,30], a value in (0,30]; it is
    30 at distance 0 and 0 at distance 250.  Strict decrease is a property of
    exact arithmetic: over the reals the score is strictly decreasing on
    [0,250), while in binary64 two distinct distances can get the same score,
    as 1.75 and the next double do. *)
Theorem distance_score_decay :
  (forall (T : Type) (N : Num T) (expf : T -> T) (d : T),
     (d >=? of_Z 250)%num = true -> distance_score_with expf d = of_Z 0)
  /\ (forall (expf : R -> R) (d : R), 250 <= d -> distance_score_with expf d = 0)
  /\ (forall d : R, 250 <= d -> distance_score d = 0)
  /\ (forall d : R, 0 <= d < 250 ->
        distance_score d = Rmax 0 (Rmin 30 (30 * exp (-0.02 * d)))
        /\ 0 < distance_score d <= 30)
  /\ (forall d1 d2 : R, 0 <= d1 -> d1 < d2 -> d2 < 250 ->
        distance_score d2 < distance_score d1)
  /\ distance_score 0 = 30
  /\ distance_score 250 = 0
  /\ PrimFloat.ltb 1.75 (PrimFloat.next_up 1.75) = true
  /\ (forall expf : float -> float,
        distance_score_with expf 1.75%float =
        distance_score_with expf (PrimFloat.next_up 1.75)).
Proof.
  split; [| split; [| split; [| split; [| split; [| split; [| split; [| split]]]]]]].
  - intros T N expf d Hd. unfold distance_score_with. rewrite Hd. reflexivity.
  - exact distance_score_with_far.
  - intros d Hd. apply distance_score_with_far. exact Hd.
  - intros d Hd.
    pose proof (decay_pos d) as Hpos.
    pose proof (decay_le_1 d (proj1 Hd)) as Hle.
    rewrite (distance_score_near d Hd).
    replace (-0.02 * d) with (- (2 / 100) * d) by lra.
    split.
    + rewrite Rmin_right by lra. rewrite Rmax_right by lra. reflexivity.
    + lra.
  - intros d1 d2 H0 H12 H250.
    rewrite (distance_score_near d1), (distance_score_near d2) by lra.
    pose proof (decay_decreasing d1 d2 H12). lra.
  - rewrite distance_score_near by lra.
    replace (- (2 / 100) * 0) with 0 by lra. rewrite exp_0. lra.
  - apply distance_score_with_far. lra.
  - reflexivity.
  - exact distance_score_with_plateau.
Qed.

Lemma duration_score_early (o : R) :
  o <= 0 -> duration_score o = 30 + Rmin 6 (Rabs o / 30 * 6).
Proof.
  intros Ho. unfold duration_score. rewrite py_min_R. num_R.
  destruct (Rle_dec o 0) as [_ | Hgt]; [reflexivity | lra].
Qed.

Lemma duration_score_late (o : R) :
  0 < o -> duration_score o = Rmax 0 (30 - o * (30 / 90)).
Proof.
  intros Ho. unfold duration_score. rewrite py_max_R. num_R.
  destruct (Rle_dec o 0) as [Hle | _]; [lra | reflexivity].
Qed.

Lemma duration_score_range (o : R) : 0 <= duration_score o <= 36.
Proof.
  destruct (Rle_dec o 0) as [Hle | Hgt].
  - rewrite duration_score_early by exact Hle.
    pose proof (Rabs_pos o) as Habs.
    unfold Rmin. r_cases.
  - rewrite duration_score_late by lra.
    unfold Rmax. r_cases.
Qed.

(** C5. The duration score is 30 + min(6, |overrun| / 30 * 6) for an overrun
    of 0 or less and max(0, 30 - overrun * (30 / 90)) for a positive one:
    exactly 36 at -30, exactly 30 at 0 (the early branch), exactly 0 at +90,
    and 0, not a negative number, at +180. *)
Theorem duration_score_formula :
  (forall o : R, o <= 0 -> duration_score o = 30 + Rmin 6 (Rabs o / 30 * 6))
  /\ (forall o : R, 0 < o -> duration_score o = Rmax 0 (30 - o * (30 / 90)))
  /\ duration_score (-30) = 36
  /\ duration_score 0 = 30
  /\ duration_score 90 = 0
  /\ duration_score 180 = 0.
Proof.
  split; [exact duration_score_early |].
  split; [exact duration_score_late |].
  repeat split.
  - rewrite duration_score_early by lra.
    rewrite Rabs_left by lra. unfold Rmin. r_cases.
  - rewrite duration_score_early by lra.
    rewrite Rabs_R0. unfold Rmin. r_cases.
  - rewrite duration_score_late by lra. unfold Rmax. r_cases.
  - rewrite duration_score_late by lra. unfold Rmax. r_cases.
Qed.

(** The signal that a score is computed from: the shared probability in
    probability mode, the argument of the call otherwise. *)
Lemma productive_score_R (p : R) (u : bool) (sp : option R) :
  productive_score p u sp =
  Returns ((if probability_mode u sp then row_get sp p else p) * 25).
Proof.
  unfold productive_score, probability_mode, mul_opt, row_get.
  destruct u, sp; reflexivity.
Qed.

Lemma ftf_score_R (f : R) (u : bool) (sp : option R) :
  ftf_score f u sp =
  Returns ((if probability_mode u sp then row_get sp f else f) * 15).
Proof.
  unfold ftf_score, probability_mode, mul_opt, row_get.
  destruct u, sp; reflexivity.
Qed.

(** The grade is the sum of the four scores, capped once. *)
Lemma calculate_dispatch_grade_sum (d o p f : R) (u : bool) (sp : option R) :
  calculate_dispatch_grade d o p f u sp =
  Returns (Rmin 100
             (distance_score d + duration_score o
              + (if probability_mode u sp then row_get sp p else p) * 25
              + (if probability_mode u sp then row_get sp f else f) * 15)).
Proof.
  unfold calculate_dispatch_grade.
  rewrite productive_score_R, ftf_score_R. cbn [bind].
  rewrite py_min_R. num_R. f_equal. f_equal. ring.
Qed.

(** C3. For a distance of 0 or more, any overrun, and signals in [0,1] (the
    two arguments, or the shared probability in probability mode), the grade
    is in [0,100]; it is the sum of the four scores capped once at 100, not a
    sum of capped scores: at distance 0, overrun -30 and both signals 1 the
    scores are 30, 36, 25 and 15, their sum is 106, and the grade is exactly
    100. *)
Theorem grade_in_range_capped_once :
  (forall (d o p f : R) (u : bool) (sp : option R),
     0 <= d -> 0 <= p <= 1 -> 0 <= f <= 1 ->
     (forall s, sp = Some s -> 0 <= s <= 1) ->
     exists g ps fs : R,
       calculate_dispatch_grade d o p f u sp = Returns g
       /\ productive_score p u sp = Returns ps
       /\ ftf_score f u sp = Returns fs
       /\ g = Rmin 100 (distance_score d + duration_score o + ps + fs)
       /\ 0 <= g <= 100)
  /\ distance_score 0 = 30
  /\ duration_score (-30) = 36
  /\ productive_score 1 false None = Returns 25
  /\ ftf_score 1 false None = Returns 15
  /\ calculate_dispatch_grade 0 (-30) 1 1 false None = Returns 100.
Proof.
  assert (Hd0 : distance_score 0 = 30).
  { rewrite distance_score_near by lra.
    replace (- (2 / 100) * 0) with 0 by lra. rewrite exp_0. lra. }
  assert (Ho30 : duration_score (-30) = 36).
  { rewrite duration_score_early by lra.
    rewrite Rabs_left by lra. unfold Rmin. r_cases. }
  split; [| repeat split].
  - intros d o p f u sp Hd Hp Hf Hsp.
    do 3 eexists.
    split; [apply calculate_dispatch_grade_sum |].
    split; [apply productive_score_R |].
    split; [apply ftf_score_R |].
    split; [reflexivity |].
    pose proof (distance_score_range d) as Hds.
    pose proof (duration_score_range o) as Hdu.
    assert (Hps : 0 <= (if probability_mode u sp then row_get sp p else p) <= 1).
    { destruct (probability_mode u sp); [| exact Hp].
      destruct sp as [s |]; [apply Hsp; reflexivity | exact Hp]. }
    assert (Hfs : 0 <= (if probability_mode u sp then row_get sp f else f) <= 1).
    { destruct (probability_mode u sp); [| exact Hf].
      destruct sp as [s |]; [apply Hsp; reflexivity | exact Hf]. }
    unfold Rmin. r_cases.
  - exact Hd0.
  - exact Ho30.
  - rewrite productive_score_R. cbn [probability_mode andb]. f_equal. lra.
  - rewrite ftf_score_R. cbn [probability_mode andb]. f_equal. lra.
  - rewrite calculate_dispatch_grade_sum, Hd0, Ho30.
    cbn [probability_mode andb]. f_equal. unfold Rmin. r_cases.
Qed.

(** C10. With [use_probabilities=True] and [success_prob=None] the call does
    not raise: the productive and first-time-fix scores are
    productive_dispatch * 25 and first_time_fix * 15, and the grade is the one
    of the same call with [use_probabilities=False].  Probability mode is on
    only when [use_probabilities] is true and [success_prob] is not [None];
    then the two scores are success_prob * 25 and success_prob * 15. *)
Theorem probability_mode_needs_both (T : Type) (N : Num T) (E : Exp T)
    (d o p f : T) :
  productive_score p true None = Returns (p * of_Z 25)%num
  /\ ftf_score f true None = Returns (f * of_Z 15)%num
  /\ (exists g : T, calculate_dispatch_grade d o p f true None = Returns g)
  /\ (forall sp : option T,
        calculate_dispatch_grade d o p f true None =
        calculate_dispatch_grade d o p f false sp)
  /\ (forall (u : bool) (sp : option T),
        probability_mode u sp = true <-> u = true /\ exists s : T, sp = Some s)
  /\ (forall (u : bool) (sp : option T),
        probability_mode u sp = false ->
        productive_score p u sp = Returns (p * of_Z 25)%num
        /\ ftf_score f u sp = Returns (f * of_Z 15)%num)
  /\ (forall s : T,
        productive_score p true (Some s) = Returns (s * of_Z 25)%num
        /\ ftf_score f true (Some s) = Returns (s * of_Z 15)%num).
Proof.
  split; [reflexivity |].
  split; [reflexivity |].
  split; [eexists; reflexivity |].
  split; [intros sp; reflexivity |].
  split; [| split].
  - intros u sp. unfold probability_mode. split.
    + intros Hmode. apply andb_prop in Hmode. destruct Hmode as [Hu Hsp].
      split; [exact Hu |].
      destruct sp as [s |]; [exists s; reflexivity | discriminate Hsp].
    + intros [-> [s ->]]. reflexivity.
  - intros u sp Hmode. unfold productive_score, ftf_score.
    rewrite Hmode. split; reflexivity.
  - intros s. split; reflexivity.
Qed.

(** *** Recommendations *)

Lemma recommendation_tier_cases (p : R) :
  (0.8 <= p /\ recommendation_tier p = "PROCEED")
  \/ (0.6 <= p < 0.8 /\ recommendation_tier p = "PROCEED WITH CAUTION")
  \/ (0.4 <= p < 0.6 /\ recommendation_tier p = "REVIEW")
  \/ (p < 0.4 /\ recommendation_tier p = "DO NOT PROCEED").
Proof.
  unfold recommendation_tier, ratio. num_R.
  destruct (Rle_dec (8 / 10) p); [left; split; [lra | reflexivity] |].
  destruct (Rle_dec (6 / 10) p); [right; left; split; [lra | reflexivity] |].
  destruct (Rle_dec (4 / 10) p); [right; right; left; split; [lra | reflexivity] |].
  right; right; right. split; [lra | reflexivity].
Qed.

(** C6. The tier is "PROCEED" iff p >= 0.8, "PROCEED WITH CAUTION" iff
    0.6 <= p < 0.8, "REVIEW" iff 0.4 <= p < 0.6 and "DO NOT PROCEED" iff
    p < 0.4, so exactly 0.8 gives "PROCEED".  [get_recommendation] returns the
    tier of the row's probability, followed by the duration warning when
    duration_diff > expected_duration * 0.3 and by nothing otherwise: the
    warning does not change the tier.  [predict.py] chooses its
    recommendation line by the same thresholds: the line is the tier followed
    by a description. *)
Theorem recommendation_tier_thresholds (format_0f : R -> string) (p : R) :
  (recommendation_tier p = "PROCEED" <-> 0.8 <= p)
  /\ (recommendation_tier p = "PROCEED WITH CAUTION" <-> 0.6 <= p < 0.8)
  /\ (recommendation_tier p = "REVIEW" <-> 0.4 <= p < 0.6)
  /\ (recommendation_tier p = "DO NOT PROCEED" <-> p < 0.4)
  /\ recommendation_tier (T := R) 0.8 = "PROCEED"
  /\ (forall diff expected : R,
        let row := {| success_probability := p;
                      duration_difference := diff;
                      expected_duration := expected |} in
        (diff > expected * 0.3 ->
         get_recommendation format_0f row =
         recommendation_tier p ++ " (Warning: +" ++ format_0f diff ++ " min)")
        /\ (~ diff > expected * 0.3 ->
            get_recommendation format_0f row = recommendation_tier p))
  /\ (exists description : string,
        predictor_recommendation p = recommendation_tier p ++ " - " ++ description).
Proof.
  assert (H08 : recommendation_tier (T := R) 0.8 = "PROCEED").
  { destruct (recommendation_tier_cases 0.8) as [[_ E] | [[? _] | [[? _] | [? _]]]];
      [exact E | lra | lra | lra]. }
  repeat match goal with |- _ /\ _ => split end.
  - destruct (recommendation_tier_cases p) as [[? E] | [[? E] | [[? E] | [? E]]]];
      rewrite E; split; intros; try discriminate; try lra; reflexivity.
  - destruct (recommendation_tier_cases p) as [[? E] | [[? E] | [[? E] | [? E]]]];
      rewrite E; split; intros; try discriminate; try lra; reflexivity.
  - destruct (recommendation_tier_cases p) as [[? E] | [[? E] | [[? E] | [? E]]]];
      rewrite E; split; intros; try discriminate; try lra; reflexivity.
  - destruct (recommendation_tier_cases p) as [[? E] | [[? E] | [[? E] | [? E]]]];
      rewrite E; split; intros; try discriminate; try lra; reflexivity.
  - exact H08.
  - intros diff expected row.
    unfold get_recommendation, duration_warning, row, ratio.
    cbn [success_probability duration_difference expected_duration]. num_R.
    split; intros Hover.
    + destruct (Rlt_dec (expected * (3 / 10)) diff); [reflexivity | lra].
    + destruct (Rlt_dec (expected * (3 / 10)) diff); [lra | reflexivity].
  - unfold predictor_recommendation, recommendation_tier, ratio. num_R.
    destruct (Rle_dec (8 / 10) p); [eexists; reflexivity |].
    destruct (Rle_dec (6 / 10) p); [eexists; reflexivity |].
    destruct (Rle_dec (4 / 10) p); eexists; reflexivity.
Qed.

(** ** Evaluation in IEEE 754 binary64

    The same functions at the [float] instance, on the inputs that the
    specification names: the values are those stated over the reals, so no
    rounding of the decimal constants moves a result across a threshold. *)

Example float_rule_probability_ideal :
  calculate_rule_based_probability (init float) (ideal_row float) = Returns 1%float.
Proof. vm_compute. reflexivity. Qed.

Example float_rule_probability_challenging :
  calculate_rule_based_probability (init float) (challenging_row float) = Returns 0%float.
Proof. vm_compute. reflexivity. Qed.

Example float_rule_probability_adverse :
  calculate_rule_based_probability (init float) (adverse_row float) = Returns 0%float.
Proof. vm_compute. reflexivity. Qed.

(** A row with no field: 0.55 - 0.10 + 0.30 + 0.00 + 0.00 + 0.02. *)
Example float_rule_probability_empty :
  calculate_rule_based_probability (init float) (empty_row float) = Returns (ratio 77 100).
Proof. vm_compute. reflexivity. Qed.

(** A NaN matches no interval and gets the default label; a boundary value
    belongs to the interval it starts. *)
Example float_categories :
  get_workload_category (init float) PrimFloat.nan = "medium"
  /\ get_workload_category (init float) (ratio 5 10) = "medium"
  /\ get_workload_category (init float) (ratio 8 10) = "high"
  /\ get_workload_category (init float) (of_Z 1) = "overloaded"
  /\ get_workload_category (init float) (of_Z (-1)) = "medium"
  /\ get_distance_category (init float) (of_Z 0) = "very_close"
  /\ get_distance_category (init float) (of_Z 10) = "close"
  /\ get_distance_category (init float) (of_Z 500) = "very_far"
  /\ get_distance_category (init float) PrimFloat.nan = "medium".
Proof. vm_compute. repeat split. Qed.

Example float_duration_score :
  duration_score (T := float) (of_Z (-30)) = 36%float
  /\ duration_score (T := float) (of_Z 0) = 30%float
  /\ duration_score (T := float) (of_Z 90) = 0%float
  /\ duration_score (T := float) (of_Z 180) = 0%float.
Proof. vm_compute. repeat split. Qed.

(** From 250 km on no exponential is evaluated: the score and the grade do
    not depend on it. *)
Example float_distance_score_far (expf : float -> float) :
  distance_score_with expf (of_Z 250) = 0%float
  /\ distance_score_with expf (of_Z 1000) = 0%float.
Proof. vm_compute. repeat split. Qed.

Example float_grade_worst (E : Exp float) :
  calculate_dispatch_grade (of_Z 250) (of_Z 90) (of_Z 0) (of_Z 0) false None
  = Returns 0%float.
Proof. vm_compute. reflexivity. Qed.

Example float_grade_mode_fallback (E : Exp float) :
  calculate_dispatch_grade (of_Z 300) (of_Z 0) (of_Z 1) (of_Z 1) true None
  = Returns 70%float.
Proof. vm_compute. reflexivity. Qed.

Example float_blend :
  blend_probabilities (T := float) (ratio 3 10) (ratio 9 10) (of_Z 1)
    = Returns (ratio 9 10)
  /\ blend_probabilities (T := float) (ratio 3 10) (ratio 9 10) (of_Z 0)
    = Returns (ratio 3 10)
  /\ blend_probabilities (T := float) (ratio 3 10) (ratio 9 10) (of_Z 2)
    = Returns 1.5%float.
Proof. vm_compute. repeat split. Qed.

Example float_recommendation_boundary :
  recommendation_tier (T := float) (ratio 8 10) = "PROCEED"
  /\ recommendation_tier (T := float) (ratio 79999 100000) = "PROCEED WITH CAUTION".
Proof. vm_compute. repeat split. Qed.

(** ** The other scenarios of the specification, over the reals *)

Example rule_probability_challenging :
  calculate_rule_based_probability (init R) (challenging_row R) = Returns 0.
Proof.
  rewrite calculate_rule_based_probability_returns. f_equal.
  unfold rule_probability_spec, challenging_row. cbn [skill_match workload_ratio
    distance priority ticket_type row_get].
  unfold ratio. num_R.
  unfold skill_term_spec, workload_bucket_spec, distance_bucket_spec.
  unfold priority_adjustment_spec, ticket_type_adjustment_spec.
  r_cases. string_cases.
  unfold workload_adjustment_spec, distance_adjustment_spec.
  unfold clip_unit_spec, Rmin, Rmax. r_cases.
Qed.

Example grade_on_time_at_the_door :
  calculate_dispatch_grade 0 0 1 1 false None = Returns 100.
Proof.
  rewrite calculate_dispatch_grade_sum.
  rewrite distance_score_near by lra.
  replace (- (2 / 100) * 0) with 0 by lra. rewrite exp_0.
  rewrite duration_score_early by lra. rewrite Rabs_R0.
  cbn [probability_mode andb]. f_equal. unfold Rmin. r_cases.
Qed.

Example grade_far_and_late :
  calculate_dispatch_grade 250 90 0 0 false None = Returns 0.
Proof.
  rewrite calculate_dispatch_grade_sum.
  unfold distance_score. rewrite distance_score_with_far by lra.
  rewrite duration_score_late by lra.
  cbn [probability_mode andb]. f_equal. unfold Rmin, Rmax. r_cases.
Qed.

(** ** Further properties of the rules and of the blend *)

(** X1. With a weight in [0,1], the blend of two probabilities is a
    probability: for inputs in [0,1] the value returned is in [0,1]. *)
Theorem blend_stays_probability (ml_prob rule_prob rule_weight : R) :
  0 <= rule_weight <= 1 ->
  0 <= ml_prob <= 1 ->
  0 <= rule_prob <= 1 ->
  exists p : R,
    blend_probabilities ml_prob rule_prob rule_weight = Returns p
    /\ 0 <= p <= 1.
Proof.
  intros Hw Hml Hrule. eexists. split; [reflexivity |]. num_R.
  split; nra.
Qed.

Lemma blend_stays_probability_witness :
  exists p : R,
    blend_probabilities 0.2 1 0.7 = Returns p
    /\ 0 <= p <= 1.
Proof.
  apply (blend_stays_probability 0.2 1 0.7); lra.
Defined.

(** The raw sum of a row whose skill matches, whose workload is under 0.8
    and whose distance is under 100 is 1.14 at least. *)
Lemma aligned_adjustments (w d : R) (prio ticket : string) :
  w < 0.8 -> d < 100 ->
  1 <= 0.55 + 0.37
       + workload_adjustment_spec (workload_bucket_spec w)
       + distance_adjustment_spec (distance_bucket_spec d)
       + priority_adjustment_spec prio
       + ticket_type_adjustment_spec ticket.
Proof.
  intros Hw Hd.
  assert (Hwl : 0.30 <= workload_adjustment_spec (workload_bucket_spec w)).
  { unfold workload_bucket_spec. r_cases; simpl; lra. }
  assert (Hdi : 0 <= distance_adjustment_spec (distance_bucket_spec d)).
  { unfold distance_bucket_spec. r_cases; simpl; lra. }
  assert (Hpr : -0.05 <= priority_adjustment_spec prio).
  { unfold priority_adjustment_spec.
    repeat destruct (string_dec prio _); lra. }
  assert (Hti : -0.03 <= ticket_type_adjustment_spec ticket).
  { unfold ticket_type_adjustment_spec.
    repeat destruct (string_dec ticket _); lra. }
  lra.
Qed.

Lemma clip_unit_spec_high (x : R) : 1 <= x -> clip_unit_spec x = 1.
Proof.
  intros Hx. unfold clip_unit_spec, Rmin, Rmax. r_cases.
Qed.

Lemma clip_unit_spec_monotone (x y : R) : x <= y -> clip_unit_spec x <= clip_unit_spec y.
Proof.
  intros Hxy. unfold clip_unit_spec, Rmin, Rmax. r_cases.
Qed.

(** A row with the three main factors aligned, in the terms of the
    specification's formula. *)
Lemma aligned_probability (w d : option R) (prio ticket : option string) :
  (forall x, w = Some x -> x < 0.8) ->
  (forall x, d = Some x -> x < 100) ->
  rule_probability_spec (Some 1) w (row_get d 50) prio ticket = 1.
Proof.
  intros Hw Hd. unfold rule_probability_spec.
  apply clip_unit_spec_high.
  unfold skill_term_spec. destruct (Req_dec_T 1 1) as [_ | Hne]; [| lra].
  apply aligned_adjustments.
  - destruct w as [x |]; [apply Hw; reflexivity | lra].
  - destruct d as [x |]; [apply Hd; reflexivity | simpl; lra].
Qed.

(** X2. When the three main factors align (skill match, workload under 0.8
    or unknown, distance under 100 km or unknown) the rule-based probability
    is exactly 1, whatever the priority and the ticket type: the clip
    absorbs every secondary adjustment. *)
Theorem rule_probability_saturates (row : Row R) :
  skill_match row = Some 1 ->
  (forall w, workload_ratio row = Some w -> w < 0.8) ->
  (forall d, distance row = Some d -> d < 100) ->
  calculate_rule_based_probability (init R) row = Returns 1.
Proof.
  intros Hskill Hw Hd.
  rewrite calculate_rule_based_probability_returns, Hskill.
  f_equal. apply aligned_probability; assumption.
Qed.

Lemma rule_probability_saturates_witness :
  calculate_rule_based_probability (init R)
    {| skill_match := Some 1; workload_ratio := Some 0.79; distance := Some 99;
       priority := Some "Critical"; ticket_type := Some "Trouble" |}
  = Returns 1.
Proof.
  apply rule_probability_saturates; cbn [skill_match workload_ratio distance].
  - reflexivity.
  - intros w Hw. injection Hw as <-. lra.
  - intros d Hd. injection Hd as <-. lra.
Defined.

Lemma workload_adjustment_monotone (w1 w2 : R) :
  0 <= w1 <= w2 ->
  workload_adjustment_spec (workload_bucket_spec w2)
  <= workload_adjustment_spec (workload_bucket_spec w1).
Proof.
  intros Hw. unfold workload_bucket_spec. r_cases; simpl; lra.
Qed.

Lemma distance_adjustment_monotone (d1 d2 : R) :
  0 <= d1 <= d2 ->
  distance_adjustment_spec (distance_bucket_spec d2)
  <= distance_adjustment_spec (distance_bucket_spec d1).
Proof.
  intros Hd. unfold distance_bucket_spec. r_cases; simpl; lra.
Qed.

(** X3. All else equal, a larger non-negative workload ratio and a larger
    non-negative distance never raise the rule-based probability. *)
Theorem rule_probability_monotone (skill : option R) (prio ticket : option string)
    (w1 w2 d1 d2 : R) :
  0 <= w1 <= w2 ->
  0 <= d1 <= d2 ->
  exists p1 p2 : R,
    calculate_rule_based_probability (init R)
      {| skill_match := skill; workload_ratio := Some w1; distance := Some d1;
         priority := prio; ticket_type := ticket |} = Returns p1
    /\ calculate_rule_based_probability (init R)
         {| skill_match := skill; workload_ratio := Some w2; distance := Some d2;
            priority := prio; ticket_type := ticket |} = Returns p2
    /\ p2 <= p1.
Proof.
  intros Hw Hd. do 2 eexists.
  split; [apply calculate_rule_based_probability_returns |].
  split; [apply calculate_rule_based_probability_returns |].
  cbn [skill_match workload_ratio distance priority ticket_type row_get].
  unfold rule_probability_spec. apply clip_unit_spec_monotone.
  pose proof (workload_adjustment_monotone w1 w2 Hw).
  pose proof (distance_adjustment_monotone d1 d2 Hd).
  lra.
Qed.

Lemma rule_probability_monotone_witness :
  0 <= 0.9 <= 1.2
  /\ 0 <= 40 <= 120
  /\ exists p1 p2 : R,
       calculate_rule_based_probability (init R)
         {| skill_match := Some 0; workload_ratio := Some 0.9; distance := Some 40;
            priority := Some "High"; ticket_type := None |} = Returns p1
       /\ calculate_rule_based_probability (init R)
            {| skill_match := Some 0; workload_ratio := Some 1.2; distance := Some 120;
               priority := Some "High"; ticket_type := None |} = Returns p2
       /\ p2 <= p1.
Proof.
  split; [lra |]. split; [lra |].
  apply (rule_probability_monotone (Some 0) (Some "High") None 0.9 1.2 40 120); lra.
Defined.

(** A row function that always returns maps over the rows. *)
Lemma apply_rows_map {A B : Type} (f : A -> outcome B) (g : A -> B) (df : list A) :
  (forall row, f row = Returns (g row)) ->
  apply_rows f df = Returns (map g df).
Proof.
  intros Hf. induction df as [| row rest IH]; simpl.
  - reflexivity.
  - rewrite Hf, IH. reflexivity.
Qed.

(** The rule-based probability of a row, as the specification's formula. *)
Lemma calculate_probabilities_map (df : list (Row R)) :
  calculate_probabilities (init R) df =
  Returns (map (fun row =>
                  rule_probability_spec (skill_match row) (workload_ratio row)
                    (row_get (distance row) 50) (priority row) (ticket_type row))
               df).
Proof.
  unfold calculate_probabilities. apply apply_rows_map.
  intros row. apply calculate_rule_based_probability_returns.
Qed.

(** On a frame whose cells are numbers and texts, or absent,
    [calculate_probabilities] returns one probability per row, in the order
    of the rows, each the value of [calculate_rule_based_probability] on its
    row and each in [0,1]. *)
Lemma calculate_probabilities_typed (df : list (Row R)) :
  exists probabilities : list R,
    calculate_probabilities (init R) df = Returns probabilities
    /\ List.length probabilities = List.length df
    /\ Forall2 (fun row p => calculate_rule_based_probability (init R) row = Returns p)
         df probabilities
    /\ Forall (fun p => 0 <= p <= 1) probabilities.
Proof.
  eexists. split; [apply calculate_probabilities_map |].
  split; [apply length_map |].
  split.
  - induction df as [| row rest IH]; simpl; constructor.
    + apply calculate_rule_based_probability_returns.
    + exact IH.
  - apply Forall_map, Forall_forall. intros row _.
    apply clip_unit_spec_range.
Qed.

(** *** The explanation *)




(** *** make_predictions *)

Lemma string_append_empty (s : string) : s ++ "" = s.
Proof.
  induction s as [| c s IH]; simpl; [reflexivity | rewrite IH; reflexivity].
Qed.

Lemma get_confidence_cases (row : ResultRow R) :
  let p := success_probability row in
  (0.8 <= p /\ get_confidence row = "High" /\ recommendation_tier p = "PROCEED")
  \/ (0.6 <= p < 0.8 /\ get_confidence row = "Medium"
      /\ recommendation_tier p = "PROCEED WITH CAUTION")
  \/ (0.4 <= p < 0.6 /\ get_confidence row = "Low" /\ recommendation_tier p = "REVIEW")
  \/ (p < 0.4 /\ get_confidence row = "Very Low"
      /\ recommendation_tier p = "DO NOT PROCEED").
Proof.
  unfold get_confidence, recommendation_tier, ratio. num_R. cbv zeta.
  destruct (Rle_dec (8 / 10) (success_probability row));
    [left; repeat split; lra |].
  destruct (Rle_dec (6 / 10) (success_probability row));
    [right; left; repeat split; lra |].
  destruct (Rle_dec (4 / 10) (success_probability row));
    [right; right; left; repeat split; lra |].
  right; right; right. repeat split; lra.
Qed.

(** X6. The confidence and the recommendation of a row always name the same
    tier: "High" with "PROCEED", "Medium" with "PROCEED WITH CAUTION", "Low"
    with "REVIEW" and "Very Low" with "DO NOT PROCEED"; the recommendation is
    that tier, followed by the duration warning or by nothing. *)
Theorem confidence_matches_recommendation (format_0f : R -> string) (row : ResultRow R) :
  let tier := recommendation_tier (success_probability row) in
  (get_confidence row = "High" <-> tier = "PROCEED")
  /\ (get_confidence row = "Medium" <-> tier = "PROCEED WITH CAUTION")
  /\ (get_confidence row = "Low" <-> tier = "REVIEW")
  /\ (get_confidence row = "Very Low" <-> tier = "DO NOT PROCEED")
  /\ exists suffix : string, get_recommendation format_0f row = tier ++ suffix.
Proof.
  cbv zeta.
  assert (Hrec : exists suffix : string,
            get_recommendation format_0f row =
            recommendation_tier (success_probability row) ++ suffix).
  { unfold get_recommendation.
    destruct (_ >? _)%num.
    - eexists. reflexivity.
    - exists "". symmetry. apply string_append_empty. }
  destruct (get_confidence_cases row) as [H | [H | [H | H]]];
    cbv zeta in H; destruct H as (_ & Hconfidence & Htier);
    (repeat split; try exact Hrec; intros;
     rewrite ?Hconfidence, ?Htier in *; try discriminate; reflexivity).
Qed.

Lemma combine_map_same {A B C : Type} (f : A -> B) (g : A -> C) (l : list A) :
  combine (map f l) (map g l) = map (fun x => (f x, g x)) l.
Proof.
  induction l as [| x l IH]; simpl; [reflexivity | rewrite IH; reflexivity].
Qed.

(** The three columns that the labelling functions read, as rows. *)
Lemma result_rows_map {A : Type} (p diff expected : A -> R) (l : list A) :
  result_rows (map p l) (map diff l) (map expected l) =
  map (fun x => {| success_probability := p x;
                   duration_difference := diff x;
                   expected_duration := expected x |}) l.
Proof.
  unfold result_rows.
  rewrite (combine_map_same diff expected), (combine_map_same p).
  rewrite map_map. reflexivity.
Qed.

(** The columns of a call, from the two columns that the mode decides. *)
Lemma make_predictions_columns (format_0f : R -> string)
    (probability : Dispatch R * ModelOutput R -> R)
    (prediction : Dispatch R * ModelOutput R -> Z)
    (scored : list (Dispatch R * ModelOutput R)) :
  let expected_durations := map dispatch_expected_duration (map fst scored) in
  let duration_predictions := map (fun s => duration_prediction (snd s)) scored in
  let duration_differences :=
    map (fun '(predicted_duration, expected) => (predicted_duration - expected)%num)
        (combine duration_predictions expected_durations) in
  let rows := result_rows (map probability scored) duration_differences expected_durations in
  {| col_success_prediction := map prediction scored;
     col_success_probability := map probability scored;
     col_failure_probability := map (fun p => (of_Z 1 - p)%num) (map probability scored);
     col_estimated_duration := duration_predictions;
     col_duration_difference := duration_differences;
     col_recommendation := map (get_recommendation format_0f) rows;
     col_confidence := map get_confidence rows |}
  = predictions_spec format_0f probability prediction scored.
Proof.
  cbv zeta. unfold predictions_spec.
  rewrite (map_map fst dispatch_expected_duration).
  rewrite (combine_map_same (fun s => duration_prediction (snd s))
             (fun s => dispatch_expected_duration (fst s))).
  rewrite !map_map.
  rewrite (result_rows_map probability
             (fun s => duration_prediction (snd s) - dispatch_expected_duration (fst s))
             (fun s => dispatch_expected_duration (fst s))).
  rewrite !map_map. reflexivity.
Qed.

Lemma blended_column (scored : list (Dispatch R * ModelOutput R)) (rule_weight : R) :
  map (fun '(ml_prob, rule_prob) =>
         rule_weight * rule_prob + (1 - rule_weight) * ml_prob)
      (combine (map (fun s => ml_success_probability (snd s)) scored)
         (map (fun row =>
                 rule_probability_spec (skill_match row) (workload_ratio row)
                   (row_get (distance row) 50) (priority row) (ticket_type row))
              (map features (map fst scored))))
  = map (hybrid_probability_spec rule_weight) scored.
Proof.
  induction scored as [| s rest IH]; simpl; [reflexivity |].
  rewrite IH. reflexivity.
Qed.

Lemma make_predictions_hybrid_rows (format_0f : R -> string)
    (scored : list (Dispatch R * ModelOutput R)) (rule_weight : R) :
  make_predictions format_0f scored rule_weight true =
  Returns (predictions_spec format_0f (hybrid_probability_spec rule_weight)
             (fun s => threshold_prediction_spec (hybrid_probability_spec rule_weight s))
             scored).
Proof.
  unfold make_predictions.
  rewrite calculate_probabilities_map. cbn [bind].
  rewrite (apply_rows_map _
             (fun '(ml_prob, rule_prob) =>
                rule_weight * rule_prob + (1 - rule_weight) * ml_prob));
    [| intros [ml_prob rule_prob]; reflexivity].
  cbn [bind fst snd]. rewrite blended_column.
  rewrite <- (make_predictions_columns format_0f (hybrid_probability_spec rule_weight)
                (fun s => threshold_prediction_spec (hybrid_probability_spec rule_weight s))
                scored).
  cbv zeta. f_equal. f_equal.
  rewrite map_map. apply map_ext. intros s.
  unfold threshold_prediction_spec, ratio. num_R.
  replace (5 / 10) with 0.5 by lra.
  destruct (Rle_dec 0.5 _); reflexivity.
Qed.




Lemma Forall2_map_same {A B C : Type} (P : B -> C -> Prop) (f : A -> B) (g : A -> C)
    (l : list A) :
  (forall x, In x l -> P (f x) (g x)) -> Forall2 P (map f l) (map g l).
Proof.
  induction l as [| x l IH]; intros HP; simpl; constructor.
  - apply HP. left. reflexivity.
  - apply IH. intros y Hy. apply HP. right. exact Hy.
Qed.

Lemma rule_probability_spec_range (skill workload : option R) (d : R)
    (prio ticket : option string) :
  0 <= rule_probability_spec skill workload d prio ticket <= 1.
Proof.
  unfold rule_probability_spec. apply clip_unit_spec_range.
Qed.

Lemma hybrid_probability_spec_range (w : R) (s : Dispatch R * ModelOutput R) :
  0 <= w <= 1 ->
  0 <= ml_success_probability (snd s) <= 1 ->
  0 <= hybrid_probability_spec w s <= 1.
Proof.
  intros Hw Hml. unfold hybrid_probability_spec. cbv zeta.
  pose proof (rule_probability_spec_range
                (skill_match (features (fst s))) (workload_ratio (features (fst s)))
                (row_get (distance (features (fst s))) 50)
                (priority (features (fst s))) (ticket_type (features (fst s)))) as Hrule.
  split; nra.
Qed.

(** X8. In hybrid mode, with a weight in [0,1] and model probabilities in
    [0,1], every success probability that [make_predictions] returns is in
    [0,1], and the failure probability beside it is its complement, in [0,1]
    as well; there is one of each per row. *)
Theorem hybrid_probabilities_in_range (format_0f : R -> string)
    (scored : list (Dispatch R * ModelOutput R)) (rule_weight : R) :
  0 <= rule_weight <= 1 ->
  Forall (fun s => 0 <= ml_success_probability (snd s) <= 1) scored ->
  exists r : Predictions R,
    make_predictions format_0f scored rule_weight true = Returns r
    /\ List.length (col_success_probability r) = List.length scored
    /\ Forall (fun p => 0 <= p <= 1) (col_success_probability r)
    /\ Forall2 (fun p q => q = 1 - p /\ 0 <= q <= 1)
         (col_success_probability r) (col_failure_probability r).
Proof.
  intros Hw Hml. rewrite Forall_forall in Hml.
  eexists. split; [apply make_predictions_hybrid_rows |].
  unfold predictions_spec. cbn [col_success_probability col_failure_probability].
  split; [apply length_map |].
  split.
  - apply Forall_map, Forall_forall. intros s Hs.
    apply hybrid_probability_spec_range; [exact Hw | apply Hml; exact Hs].
  - apply Forall2_map_same. intros s Hs.
    pose proof (hybrid_probability_spec_range rule_weight s Hw (Hml s Hs)).
    split; [reflexivity | lra].
Qed.

Lemma hybrid_probabilities_in_range_witness :
  exists r : Predictions R,
    make_predictions (fun _ => "0")
      [ ({| features := ideal_row R; dispatch_expected_duration := 60 |},
         {| ml_success_prediction := 0%Z; ml_success_probability := 0.2;
            duration_prediction := 75 |}) ] 0.7 true = Returns r
    /\ List.length (col_success_probability r) = 1%nat
    /\ Forall (fun p => 0 <= p <= 1) (col_success_probability r)
    /\ Forall2 (fun p q => q = 1 - p /\ 0 <= q <= 1)
         (col_success_probability r) (col_failure_probability r).
Proof.
  apply (hybrid_probabilities_in_range (fun _ => "0")
           [ ({| features := ideal_row R; dispatch_expected_duration := 60 |},
              {| ml_success_prediction := 0%Z; ml_success_probability := 0.2;
                 duration_prediction := 75 |}) ] 0.7).
  - lra.
  - constructor; [cbn [snd ml_success_probability]; lra | constructor].
Defined.

(** How a recommendation starts, by the probability of its row. *)
Lemma recommendation_prefix (format_0f : R -> string) (row : ResultRow R) :
  (0.6 <= success_probability row ->
   prefix "PROCEED" (get_recommendation format_0f row) = true)
  /\ (success_probability row < 0.6 ->
      prefix "PROCEED" (get_recommendation format_0f row) = false)
  /\ (success_probability row < 0.4 ->
      prefix "DO NOT PROCEED" (get_recommendation format_0f row) = true)
  /\ (0.4 <= success_probability row ->
      prefix "DO NOT PROCEED" (get_recommendation format_0f row) = false).
Proof.
  unfold get_recommendation.
  destruct (recommendation_tier_cases (success_probability row))
    as [[Hp ->] | [[Hp ->] | [[Hp ->] | [Hp ->]]]];
    destruct (_ >? _)%num;
    (repeat split; intros; first [reflexivity | lra]).
Qed.

(** X9. In hybrid mode the prediction is read off the blended probability:
    it is 1 exactly when the probability is 0.5 or more, and 0 otherwise.  So
    a row recommended "PROCEED" or "PROCEED WITH CAUTION" is predicted a
    success, and a row recommended "DO NOT PROCEED" a failure. *)
Theorem hybrid_prediction_consistent (format_0f : R -> string)
    (scored : list (Dispatch R * ModelOutput R)) (rule_weight : R) :
  exists r : Predictions R,
    make_predictions format_0f scored rule_weight true = Returns r
    /\ Forall2 (fun prediction p =>
                  (prediction = 1%Z <-> 0.5 <= p) /\ (prediction = 0%Z <-> p < 0.5))
         (col_success_prediction r) (col_success_probability r)
    /\ Forall2 (fun prediction recommendation =>
                  (prefix "PROCEED" recommendation = true -> prediction = 1%Z)
                  /\ (prefix "DO NOT PROCEED" recommendation = true -> prediction = 0%Z))
         (col_success_prediction r) (col_recommendation r).
Proof.
  eexists. split; [apply make_predictions_hybrid_rows |].
  unfold predictions_spec.
  cbn [col_success_prediction col_success_probability col_recommendation].
  split; apply Forall2_map_same; intros s _.
  - unfold threshold_prediction_spec.
    destruct (Rle_dec 0.5 (hybrid_probability_spec rule_weight s));
      repeat split; intros; first [reflexivity | discriminate | lra].
  - set (row := result_row_spec (hybrid_probability_spec rule_weight) s).
    destruct (recommendation_prefix format_0f row) as (_ & Hlow & _ & Hhigh).
    change (success_probability row) with (hybrid_probability_spec rule_weight s) in *.
    unfold threshold_prediction_spec.
    destruct (Rle_dec 0.5 (hybrid_probability_spec rule_weight s)) as [Hge | Hlt].
    + split; [reflexivity |]. intros Hprefix.
      rewrite Hhigh in Hprefix by lra. discriminate Hprefix.
    + split; [| reflexivity]. intros Hprefix.
      rewrite Hlow in Hprefix by lra. discriminate Hprefix.
Qed.

(** The rule-based probability of an adverse row (no skill match, overloaded,
    100 km or more) is 0.07 at most. *)
Lemma adverse_probability (skill : option R) (w d : R) (prio ticket : option string) :
  (forall v, skill = Some v -> v <> 1) ->
  1 <= w -> 100 <= d ->
  rule_probability_spec skill (Some w) d prio ticket <= 0.07.
Proof.
  intros Hskill Hw Hd. unfold rule_probability_spec.
  assert (Hsk : skill_term_spec skill = -0.10).
  { unfold skill_term_spec. destruct skill as [v |]; [| reflexivity].
    destruct (Req_dec_T v 1) as [-> | _]; [| reflexivity].
    exfalso. apply (Hskill 1); reflexivity. }
  assert (Hwl : workload_adjustment_spec (workload_bucket_spec w) = -0.30).
  { unfold workload_bucket_spec. r_cases. }
  assert (Hdi : distance_adjustment_spec (distance_bucket_spec d) <= -0.12).
  { unfold distance_bucket_spec. r_cases; simpl; lra. }
  assert (Hpr : forall p, priority_adjustment_spec p <= 0.02).
  { intros p. unfold priority_adjustment_spec.
    repeat destruct (string_dec p _); lra. }
  assert (Hti : forall t, ticket_type_adjustment_spec t <= 0.02).
  { intros t. unfold ticket_type_adjustment_spec.
    repeat destruct (string_dec t _); lra. }
  rewrite Hsk, Hwl.
  set (prio' := match prio with Some p => p | None => "Normal" end).
  set (ticket' := match ticket with Some t => t | None => "Order" end).
  pose proof (Hpr prio'). pose proof (Hti ticket').
  unfold clip_unit_spec, Rmin, Rmax. r_cases.
Qed.

(** X10. At the default weight 0.7 the rules decide the recommendation of
    the clearest rows, whatever the models say (their probability being in
    [0,1]): a row with skill match, workload under 0.8 and distance under
    100 km is recommended "PROCEED" or "PROCEED WITH CAUTION"; a row with no
    skill match, workload of 1 or more and distance of 100 km or more is
    recommended "DO NOT PROCEED". *)
Theorem default_weight_rules_dominate (format_0f : R -> string)
    (scored : list (Dispatch R * ModelOutput R)) :
  Forall (fun s => 0 <= ml_success_probability (snd s) <= 1) scored ->
  exists r : Predictions R,
    make_predictions format_0f scored 0.7 true = Returns r
    /\ Forall2
         (fun s recommendation =>
            let row := features (fst s) in
            (skill_match row = Some 1 ->
             (forall w, workload_ratio row = Some w -> w < 0.8) ->
             (forall d, distance row = Some d -> d < 100) ->
             prefix "PROCEED" recommendation = true)
            /\ ((forall v, skill_match row = Some v -> v <> 1) ->
                (exists w, workload_ratio row = Some w /\ 1 <= w) ->
                (exists d, distance row = Some d /\ 100 <= d) ->
                prefix "DO NOT PROCEED" recommendation = true))
         scored (col_recommendation r).
Proof.
  intros Hml. rewrite Forall_forall in Hml.
  eexists. split; [apply make_predictions_hybrid_rows |].
  unfold predictions_spec. cbn [col_recommendation].
  rewrite <- (map_id scored) at 1.
  apply Forall2_map_same. intros s Hs. cbv zeta.
  set (row := result_row_spec (hybrid_probability_spec 0.7) s).
  destruct (recommendation_prefix format_0f row) as (Hhigh & _ & Hlow & _).
  change (success_probability row) with (hybrid_probability_spec 0.7 s) in *.
  specialize (Hml s Hs). unfold hybrid_probability_spec in *. cbv zeta in *.
  split.
  - intros Hskill Hw Hd. apply Hhigh.
    rewrite Hskill, aligned_probability by assumption. lra.
  - intros Hskill (w & Hw & Hw1) (d & Hd & Hd100). apply Hlow.
    rewrite Hw, Hd. cbn [row_get].
    pose proof (adverse_probability (skill_match (features (fst s))) w d
                  (priority (features (fst s))) (ticket_type (features (fst s)))
                  Hskill Hw1 Hd100).
    lra.
Qed.

Lemma default_weight_rules_dominate_witness :
  exists r : Predictions R,
    make_predictions (fun _ => "0")
      [ ({| features := ideal_row R; dispatch_expected_duration := 60 |},
         {| ml_success_prediction := 0%Z; ml_success_probability := 0;
            duration_prediction := 75 |});
        ({| features := challenging_row R; dispatch_expected_duration := 60 |},
         {| ml_success_prediction := 1%Z; ml_success_probability := 1;
            duration_prediction := 50 |}) ] 0.7 true = Returns r
    /\ Forall2
         (fun s recommendation =>
            let row := features (fst s) in
            (skill_match row = Some 1 ->
             (forall w, workload_ratio row = Some w -> w < 0.8) ->
             (forall d, distance row = Some d -> d < 100) ->
             prefix "PROCEED" recommendation = true)
            /\ ((forall v, skill_match row = Some v -> v <> 1) ->
                (exists w, workload_ratio row = Some w /\ 1 <= w) ->
                (exists d, distance row = Some d /\ 100 <= d) ->
                prefix "DO NOT PROCEED" recommendation = true))
         [ ({| features := ideal_row R; dispatch_expected_duration := 60 |},
            {| ml_success_prediction := 0%Z; ml_success_probability := 0;
               duration_prediction := 75 |});
           ({| features := challenging_row R; dispatch_expected_duration := 60 |},
            {| ml_success_prediction := 1%Z; ml_success_probability := 1;
               duration_prediction := 50 |}) ]
         (col_recommendation r).
Proof.
  apply default_weight_rules_dominate.
  repeat constructor; cbn [snd ml_success_probability]; lra.
Defined.

(** ** Columns: predict_batch and prepare_features *)

Lemma has_column_In (columns : list string) (col : string) :
  has_column columns col = true <-> In col columns.
Proof.
  unfold has_column. rewrite existsb_exists. split.
  - intros (c & Hin & Heq). apply String.eqb_eq in Heq. subst c. exact Hin.
  - intros Hin. exists col. split; [exact Hin | apply String.eqb_refl].
Qed.

Lemma has_column_set (columns : list string) (new col : string) :
  has_column (set_column columns new) col =
  has_column columns col || String.eqb col new.
Proof.
  unfold set_column. destruct (has_column columns new) eqn:Hnew.
  - destruct (String.eqb col new) eqn:Heq; [| rewrite orb_false_r; reflexivity].
    apply String.eqb_eq in Heq. subst col. rewrite Hnew. reflexivity.
  - unfold has_column. rewrite existsb_app. cbn [existsb].
    rewrite orb_false_r. reflexivity.
Qed.

(** Selecting labels that are all columns succeeds. *)
Lemma select_columns_present (columns labels : list string) :
  (forall col, In col labels -> has_column columns col = true) ->
  select_columns columns labels = Ok labels.
Proof.
  intros Hall. unfold select_columns.
  replace (filter (fun col => negb (has_column columns col)) labels) with (@nil string);
    [reflexivity |].
  symmetry. induction labels as [| col rest IH]; [reflexivity |].
  cbn [filter]. rewrite (Hall col) by (left; reflexivity). cbn [negb].
  apply IH. intros c Hc. apply Hall. right. exact Hc.
Qed.

(** The frame of a batch request: no column for an empty list of dispatches,
    the seven fields of a request otherwise. *)
Lemma api_batch_columns_nonempty (n : nat) :
  api_batch_columns (S n) = dispatch_request_fields.
Proof.
  unfold api_batch_columns, dataframe_columns. cbn [repeat fold_left].
  change (fold_left set_column dispatch_request_fields [])
    with dispatch_request_fields.
  induction n as [| n IH]; [reflexivity |].
  cbn [repeat fold_left].
  change (fold_left set_column dispatch_request_fields dispatch_request_fields)
    with dispatch_request_fields.
  exact IH.
Qed.

(** X11. [predict_batch] checks seven columns but selects nine features.  A
    frame that lacks one of the seven is refused with [ValueError], naming
    the missing ones in the order of the check.  A frame that has the seven
    but no [workload_ratio] passes the check and then fails with [KeyError]
    on [workload_ratio] ([skill_match] is added when absent, so it never
    fails on that one); only a frame with the seven and [workload_ratio] gets
    through.  So the batch endpoint of api.py never gets a frame through:
    for a request that lists no dispatch its frame has no column and is
    refused with [ValueError] for all seven, and for a request of one
    dispatch or more its frame has exactly the seven columns and ends in the
    [KeyError]. *)
Theorem predict_batch_column_check (columns : list string) :
  let required :=
    [ "ticket_type"; "order_type"; "priority"; "required_skill";
      "technician_skill"; "distance"; "expected_duration" ] in
  let missing := filter (fun col => negb (has_column columns col)) required in
  ((exists col, In col required /\ ~ In col columns) ->
   missing <> []
   /\ (forall col, In col missing <-> In col required /\ ~ In col columns)
   /\ predict_batch_columns columns = Failed (ValueError_missing_columns missing))
  /\ ((forall col, In col required -> In col columns) ->
      ~ In "workload_ratio" columns ->
      predict_batch_columns columns = Failed (KeyError_columns ["workload_ratio"]))
  /\ ((forall col, In col required -> In col columns) ->
      In "workload_ratio" columns ->
      predict_batch_columns columns =
      Ok (if has_column columns "skill_match" then columns
          else (columns ++ ["skill_match"])%list,
          FEATURE_COLUMNS))
  /\ predict_batch_columns (api_batch_columns 0) =
     Failed (ValueError_missing_columns required)
  /\ (forall n : nat,
        predict_batch_columns (api_batch_columns (S n)) =
        Failed (KeyError_columns ["workload_ratio"])).
Proof.
  cbv zeta.
  set (required := [ "ticket_type"; "order_type"; "priority"; "required_skill";
                     "technician_skill"; "distance"; "expected_duration" ]).
  assert (Hmissing : forall col,
            In col (filter (fun col => negb (has_column columns col)) required)
            <-> In col required /\ ~ In col columns).
  { intros col. rewrite filter_In, <- (has_column_In columns col).
    destruct (has_column columns col); cbn [negb]; split; intros [Hreq Hcol].
    - discriminate Hcol.
    - exfalso. apply Hcol. reflexivity.
    - split; [exact Hreq | discriminate].
    - split; [exact Hreq | reflexivity]. }
  assert (Hpresent : (forall col, In col required -> In col columns) ->
            filter (fun col => negb (has_column columns col)) required = []).
  { intros Hall.
    destruct (filter (fun col => negb (has_column columns col)) required)
      as [| col rest] eqn:Hfilter; [reflexivity |].
    exfalso. assert (Hin : In col (col :: rest)) by (left; reflexivity).
    apply Hmissing in Hin.
    destruct Hin as [Hreq Habsent]. apply Habsent, Hall, Hreq. }
  assert (Hflags : (forall col, In col required -> In col columns) ->
            has_column columns "ticket_type" = true
            /\ has_column columns "order_type" = true
            /\ has_column columns "priority" = true
            /\ has_column columns "required_skill" = true
            /\ has_column columns "technician_skill" = true
            /\ has_column columns "distance" = true
            /\ has_column columns "expected_duration" = true).
  { intros Hall. repeat split; apply has_column_In, Hall; unfold required;
      cbn [In]; tauto. }
  split; [| split; [| split; [| split]]].
  - intros (col & Hreq & Habsent).
    assert (Hin : In col (filter (fun col => negb (has_column columns col)) required)).
    { apply Hmissing. split; assumption. }
    split; [| split; [exact Hmissing |]].
    + intros Hnil. rewrite Hnil in Hin. exact Hin.
    + unfold predict_batch_columns. fold required.
      destruct (filter (fun col => negb (has_column columns col)) required);
        [contradiction Hin | reflexivity].
  - intros Hall Hworkload.
    unfold predict_batch_columns. fold required. rewrite (Hpresent Hall).
    destruct (Hflags Hall) as (H1 & H2 & H3 & H4 & H5 & H6 & H7).
    assert (Hw : has_column columns "workload_ratio" = false).
    { destruct (has_column columns "workload_ratio") eqn:E; [| reflexivity].
      exfalso. apply Hworkload, has_column_In, E. }
    unfold select_columns, FEATURE_COLUMNS.
    destruct (has_column columns "skill_match") eqn:Hskill; cbn [negb filter];
      rewrite ?has_column_set, ?H1, ?H2, ?H3, ?H4, ?H5, ?H6, ?H7, ?Hw, ?Hskill;
      reflexivity.
  - intros Hall Hworkload.
    unfold predict_batch_columns. fold required. rewrite (Hpresent Hall).
    destruct (Hflags Hall) as (H1 & H2 & H3 & H4 & H5 & H6 & H7).
    apply has_column_In in Hworkload.
    destruct (has_column columns "skill_match") eqn:Hskill; cbn [negb].
    + rewrite select_columns_present; [reflexivity |].
      unfold FEATURE_COLUMNS. cbn [In].
      intros col [<- | [<- | [<- | [<- | [<- | [<- | [<- | [<- | [<- | []]]]]]]]]];
        assumption.
    + rewrite select_columns_present.
      * unfold set_column. rewrite Hskill. reflexivity.
      * unfold FEATURE_COLUMNS. cbn [In].
        intros col [<- | [<- | [<- | [<- | [<- | [<- | [<- | [<- | [<- | []]]]]]]]]];
          rewrite has_column_set, ?H1, ?H2, ?H3, ?H4, ?H5, ?H6, ?H7, ?Hworkload,
            ?Hskill;
          reflexivity.
  - reflexivity.
  - intros n. rewrite api_batch_columns_nonempty. reflexivity.
Qed.

(** The frame of [example_batch_prediction] lacks six of the seven columns. *)
Example example_batch_prediction_refused :
  predict_batch_columns example_batch_columns =
  Failed (ValueError_missing_columns
            [ "ticket_type"; "order_type"; "priority"; "required_skill";
              "technician_skill"; "expected_duration" ]).
Proof. reflexivity. Qed.


(** The comparisons of two string constants of the goal, computed. *)
Ltac eqb_constants :=
  repeat match goal with
  | |- context [String.eqb ?a ?b] =>
      let v := eval vm_compute in (String.eqb a b) in
      change (String.eqb a b) with v
  end;
  cbn [orb andb negb];
  rewrite ?orb_false_r, ?orb_true_r, ?andb_false_r, ?andb_true_r.

(** The columns after [create_features], as far as the features go: the
    only feature it can add is [skill_match], from the two skills. *)
Lemma create_features_columns_spec (columns : list string) :
  (has_column columns "distance" = false ->
   create_features_columns columns = Failed (KeyError_columns ["distance"]))
  /\ (has_column columns "distance" = true ->
      exists columns' : list string,
        create_features_columns columns = Ok columns'
        /\ forall col, In col FEATURE_COLUMNS ->
             has_column columns' col =
             has_column columns col
             || (String.eqb col "skill_match"
                 && (has_column columns "required_skill"
                     && has_column columns "technician_skill"))).
Proof.
  unfold create_features_columns.
  destruct (has_column columns "skill_match") eqn:Hskill;
    destruct (has_column columns "required_skill") eqn:Hreq;
    destruct (has_column columns "technician_skill") eqn:Htech;
    cbn [negb andb];
    split; intros Hdist;
    rewrite ?has_column_set, ?Hskill, ?Hdist; eqb_constants;
    try reflexivity;
    (eexists; split; [reflexivity |]);
    unfold FEATURE_COLUMNS; cbn [In];
    intros col [<- | [<- | [<- | [<- | [<- | [<- | [<- | [<- | [<- | []]]]]]]]]];
    rewrite ?has_column_set, ?Hskill, ?Hreq, ?Htech, ?Hdist;
    eqb_constants; reflexivity.
Qed.

(** X12. [prepare_features] never raises its own [ValueError] ("None of the
    required features ... found"): a frame without a [distance] column fails
    before, in [create_features], with [KeyError] on [distance]; and a frame
    with one has at least that feature.  The features selected are those of
    [FEATURE_COLUMNS] that are columns of the frame, and [skill_match] when
    the frame has the two skills to derive it from. *)
Theorem prepare_features_value_error_unreachable (columns : list string) :
  prepare_features_columns columns <> Failed ValueError_no_features
  /\ (~ In "distance" columns ->
      prepare_features_columns columns = Failed (KeyError_columns ["distance"]))
  /\ (In "distance" columns ->
      exists available : list string,
        prepare_features_columns columns = Ok available
        /\ In "distance" available
        /\ forall col,
             In col available <->
             In col FEATURE_COLUMNS
             /\ (In col columns
                 \/ (col = "skill_match" /\ In "required_skill" columns
                     /\ In "technician_skill" columns))).
Proof.
  destruct (create_features_columns_spec columns) as [Habsent Hpresent].
  assert (Hwith : In "distance" columns ->
            exists available : list string,
              prepare_features_columns columns = Ok available
              /\ In "distance" available
              /\ forall col,
                   In col available <->
                   In col FEATURE_COLUMNS
                   /\ (In col columns
                       \/ (col = "skill_match" /\ In "required_skill" columns
                           /\ In "technician_skill" columns))).
  { intros Hdist. apply has_column_In in Hdist.
    destruct (Hpresent Hdist) as (columns' & Hcreate & Hfeatures).
    unfold prepare_features_columns. rewrite Hcreate.
    assert (Hin : In "distance" (filter (has_column columns') FEATURE_COLUMNS)).
    { apply filter_In. split; [unfold FEATURE_COLUMNS; cbn [In]; tauto |].
      rewrite Hfeatures by (unfold FEATURE_COLUMNS; cbn [In]; tauto).
      rewrite Hdist. reflexivity. }
    exists (filter (has_column columns') FEATURE_COLUMNS).
    split; [| split; [exact Hin |]].
    - destruct (filter (has_column columns') FEATURE_COLUMNS) as [| c rest] eqn:Hfilter;
        [contradiction Hin |].
      rewrite <- Hfilter. apply select_columns_present.
      intros col Hcol. apply filter_In in Hcol. apply Hcol.
    - intros col. rewrite filter_In. split.
      + intros [Hfeature Hhas]. split; [exact Hfeature |].
        rewrite (Hfeatures col Hfeature) in Hhas.
        apply orb_true_iff in Hhas. destruct Hhas as [Hhas | Hhas].
        * left. apply has_column_In, Hhas.
        * right. apply andb_true_iff in Hhas. destruct Hhas as [Heq Hskills].
          apply andb_true_iff in Hskills. destruct Hskills as [Hreq Htech].
          apply String.eqb_eq in Heq.
          repeat split; [exact Heq | apply has_column_In, Hreq
                        | apply has_column_In, Htech].
      + intros [Hfeature Hsource]. split; [exact Hfeature |].
        rewrite (Hfeatures col Hfeature). apply orb_true_iff.
        destruct Hsource as [Hcol | (-> & Hreq & Htech)].
        * left. apply has_column_In, Hcol.
        * right. apply has_column_In in Hreq. apply has_column_In in Htech.
          rewrite Hreq, Htech. reflexivity. }
  split; [| split; [| exact Hwith]].
  - destruct (has_column columns "distance") eqn:Hdist.
    + apply has_column_In in Hdist.
      destruct (Hwith Hdist) as (available & -> & _). discriminate.
    + unfold prepare_features_columns. rewrite (Habsent eq_refl). discriminate.
  - intros Hdist. unfold prepare_features_columns. rewrite Habsent; [reflexivity |].
    destruct (has_column columns "distance") eqn:E; [| reflexivity].
    exfalso. apply Hdist, has_column_In, E.
Qed.

(** ** Further properties of the grade *)

Lemma decay_le (d1 d2 : R) :
  d1 <= d2 -> exp (- (2 / 100) * d2) <= exp (- (2 / 100) * d1).
Proof.
  intros Hle. destruct (Req_dec_T d1 d2) as [-> | Hne]; [lra |].
  left. apply decay_decreasing. lra.
Qed.

Lemma distance_score_clamped (d : R) :
  d < 250 -> distance_score d = Rmax 0 (Rmin 30 (30 * exp (- (2 / 100) * d))).
Proof.
  intros Hd. unfold distance_score, distance_score_with.
  rewrite py_max_R, py_min_R. unfold ratio. num_R.
  destruct (Rle_dec 250 d); [lra | reflexivity].
Qed.

Lemma distance_score_monotone (d1 d2 : R) :
  d1 <= d2 -> distance_score d2 <= distance_score d1.
Proof.
  intros Hle. destruct (Rle_dec 250 d2) as [Hfar | Hnear].
  - unfold distance_score at 1. rewrite distance_score_with_far by exact Hfar.
    apply distance_score_range.
  - rewrite (distance_score_clamped d1), (distance_score_clamped d2) by lra.
    pose proof (decay_le d1 d2 Hle).
    unfold Rmax, Rmin. r_cases.
Qed.

Lemma duration_score_monotone (o1 o2 : R) :
  o1 <= o2 -> duration_score o2 <= duration_score o1.
Proof.
  intros Hle. destruct (Rle_dec o2 0) as [Hearly2 | Hlate2].
  - rewrite (duration_score_early o1), (duration_score_early o2) by lra.
    rewrite (Rabs_left1 o1), (Rabs_left1 o2) by lra.
    unfold Rmin. r_cases.
  - destruct (Rle_dec o1 0) as [Hearly1 | Hlate1].
    + rewrite (duration_score_early o1), (duration_score_late o2) by lra.
      pose proof (Rabs_pos o1). unfold Rmin, Rmax. r_cases.
    + rewrite (duration_score_late o1), (duration_score_late o2) by lra.
      unfold Rmax. r_cases.
Qed.

Lemma observed_grade_sum (d o p f : R) :
  calculate_dispatch_grade d o p f false None =
  Returns (Rmin 100 (distance_score d + duration_score o + p * 25 + f * 15)).
Proof.
  rewrite calculate_dispatch_grade_sum. reflexivity.
Qed.

(** X13. With observed outcomes, the grade is monotone in each argument: a
    shorter distance, a smaller overrun, a larger productive signal and a
    larger first-time-fix signal never lower it. *)
Theorem grade_monotone (d1 d2 o1 o2 p1 p2 f1 f2 : R) :
  d1 <= d2 -> o1 <= o2 -> p2 <= p1 -> f2 <= f1 ->
  exists g1 g2 : R,
    calculate_dispatch_grade d1 o1 p1 f1 false None = Returns g1
    /\ calculate_dispatch_grade d2 o2 p2 f2 false None = Returns g2
    /\ g2 <= g1.
Proof.
  intros Hd Ho Hp Hf. do 2 eexists.
  split; [apply observed_grade_sum |]. split; [apply observed_grade_sum |].
  pose proof (distance_score_monotone d1 d2 Hd).
  pose proof (duration_score_monotone o1 o2 Ho).
  unfold Rmin. r_cases.
Qed.

Lemma grade_monotone_witness :
  exists g1 g2 : R,
    calculate_dispatch_grade 5 (-10) 1 1 false None = Returns g1
    /\ calculate_dispatch_grade 80 45 1 0 false None = Returns g2
    /\ g2 <= g1.
Proof.
  apply (grade_monotone 5 80 (-10) 45 1 1 1 0); lra.
Defined.

(** X14. The cap at 100 changes the grade only for a dispatch that finished
    early: with an overrun of 0 or more and signals of 1 at most, the grade is
    the plain sum of the four scores. *)
Theorem grade_cap_only_when_early (d o p f : R) :
  0 <= o -> p <= 1 -> f <= 1 ->
  calculate_dispatch_grade d o p f false None =
  Returns (distance_score d + duration_score o + p * 25 + f * 15).
Proof.
  intros Ho Hp Hf. rewrite observed_grade_sum. f_equal.
  pose proof (distance_score_range d).
  pose proof (duration_score_monotone 0 o Ho) as Hdur.
  rewrite (duration_score_early 0) in Hdur by lra.
  rewrite Rabs_R0 in Hdur.
  unfold Rmin in *. r_cases.
Qed.

Lemma grade_cap_only_when_early_witness :
  calculate_dispatch_grade 0 0 1 1 false None =
  Returns (distance_score 0 + duration_score 0 + 1 * 25 + 1 * 15).
Proof.
  apply grade_cap_only_when_early; lra.
Defined.

(** X15. A dispatch that was not productive gets 66 + 15 * first_time_fix
    at most: 81 with a first-time fix, 66 without, so never a grade of 90 or
    more, however close and however early. *)
Theorem unproductive_grade_bound (d o f : R) :
  f <= 1 ->
  exists g : R,
    calculate_dispatch_grade d o 0 f false None = Returns g
    /\ g <= 66 + 15 * f
    /\ g < 90.
Proof.
  intros Hf. eexists. split; [apply observed_grade_sum |].
  pose proof (distance_score_range d). pose proof (duration_score_range o).
  unfold Rmin. r_cases.
Qed.

Lemma unproductive_grade_bound_witness :
  exists g : R,
    calculate_dispatch_grade 0 (-30) 0 1 false None = Returns g
    /\ g <= 66 + 15 * 1
    /\ g < 90.
Proof.
  apply (unproductive_grade_bound 0 (-30) 1). lra.
Defined.

(** exp(5) is 243 at most, from exp(1) <= 3. *)
Lemma exp_5_le : exp 5 <= 243.
Proof.
  replace 5 with (1 + (1 + (1 + (1 + 1)))) by lra.
  rewrite !exp_plus.
  pose proof exp_le_3 as H3. pose proof (exp_pos 1) as Hpos.
  assert (H2 : exp 1 * exp 1 <= 9) by nra.
  assert (H2pos : 0 < exp 1 * exp 1) by nra.
  assert (H4 : exp 1 * (exp 1 * (exp 1 * exp 1)) <= 81) by nra.
  assert (H4pos : 0 < exp 1 * (exp 1 * (exp 1 * exp 1))) by nra.
  nra.
Qed.

Lemma decay_at_250_lower : / 243 <= exp (- (2 / 100) * 250).
Proof.
  replace (- (2 / 100) * 250) with (Ropp 5) by lra.
  rewrite exp_Ropp.
  apply Rinv_le_contravar; [apply exp_pos | apply exp_5_le].
Qed.

(** X16. The distance score does not fade to 0: every distance under 250 km
    scores more than 0.12 points, and 250 km scores 0, so the score drops by
    more than 0.12 at the threshold. *)
Theorem distance_score_drop_at_250 :
  (forall d : R, d < 250 -> 0.12 < distance_score d)
  /\ distance_score 250 = 0.
Proof.
  split.
  - intros d Hd. rewrite distance_score_clamped by exact Hd.
    pose proof decay_at_250_lower as Hlow.
    pose proof (decay_decreasing d 250 Hd) as Hdec.
    assert (H243 : / 243 = 1 / 243) by lra.
    unfold Rmax, Rmin. r_cases.
  - unfold distance_score. apply distance_score_with_far. lra.
Qed.

(** X17. The duration score saturates at both ends and never grows with
    the overrun: it is exactly 36 for every overrun of -30 or less, exactly 0
    for every overrun of 90 or more, it is not larger for a larger overrun,
    and so it stays between 0 and 36. *)
Theorem duration_score_saturation :
  (forall o : R, o <= -30 -> duration_score o = 36)
  /\ (forall o : R, 90 <= o -> duration_score o = 0)
  /\ (forall o1 o2 : R, o1 <= o2 -> duration_score o2 <= duration_score o1)
  /\ (forall o : R, 0 <= duration_score o <= 36).
Proof.
  split; [| split; [| split]].
  - intros o Ho. rewrite duration_score_early by lra.
    rewrite Rabs_left1 by lra. unfold Rmin. r_cases.
  - intros o Ho. rewrite duration_score_late by lra. unfold Rmax. r_cases.
  - exact duration_score_monotone.
  - exact duration_score_range.
Qed.

(** ** The statistics of the historical grades *)

Lemma grade_distribution_cons (g : R) (grades : list R) :
  let '(a, b, c, d, f) := grade_distribution grades in
  let '(a', b', c', d', f') := grade_distribution (g :: grades) in
  (a' + b' + c' + d' + f' = S (a + b + c + d + f))%nat.
Proof.
  unfold grade_distribution, count_where. cbn [filter]. num_R.
  destruct (Rle_dec 90 g); destruct (Rle_dec 80 g); destruct (Rle_dec 70 g);
    destruct (Rle_dec 60 g); destruct (Rlt_dec g 90); destruct (Rlt_dec g 80);
    destruct (Rlt_dec g 70); destruct (Rlt_dec g 60);
    try lra; cbn [andb List.length];
    repeat rewrite <- plus_n_Sm; reflexivity.
Qed.

(** X18. The script grades every row of the historical frame without
    raising, one grade per row, and its five grade buckets (90 and more, 80 to
    90, 70 to 80, 60 to 70, under 60) partition the grades: the five counts
    add up to the number of rows. *)
Theorem grade_distribution_partition (df : list (HistoricalRow R)) :
  exists grades : list R,
    historical_grades df = Returns grades
    /\ List.length grades = List.length df
    /\ let '(a, b, c, d, f) := grade_distribution grades in
       (a + b + c + d + f = List.length df)%nat.
Proof.
  eexists. split; [| split].
  - unfold historical_grades. apply apply_rows_map.
    intros row. apply observed_grade_sum.
  - apply length_map.
  - rewrite <- (length_map
                  (fun row : HistoricalRow R =>
                     Rmin 100
                       (distance_score (hist_distance row)
                        + duration_score (hist_overrun row)
                        + hist_productive_dispatch row * 25
                        + hist_first_time_fix row * 15)) df).
    generalize (map (fun row : HistoricalRow R =>
                       Rmin 100
                         (distance_score (hist_distance row)
                          + duration_score (hist_overrun row)
                          + hist_productive_dispatch row * 25
                          + hist_first_time_fix row * 15)) df).
    intros grades. induction grades as [| g grades IH].
    + reflexivity.
    + pose proof (grade_distribution_cons g grades) as Hcons.
      destruct (grade_distribution grades) as [[[[a b] c] d] f].
      destruct (grade_distribution (g :: grades)) as [[[[a' b'] c'] d'] f'].
      cbn [List.length]. rewrite Hcons, IH. reflexivity.
Qed.

(** The component breakdown of the script recomputes the four scores inline;
    they are the scores that [calculate_dispatch_grade] sums, at every number
    type: the grade of a row is the minimum of 100 and the sum, from 0, of the
    four scores of its breakdown. *)
Remark breakdown_matches_grade (T : Type) (N : Num T) (E : Exp T)
    (row : HistoricalRow T) :
  let '(distance_points, duration_points, productive_points, ftf_points) :=
    breakdown_scores row in
  calculate_dispatch_grade (hist_distance row) (hist_overrun row)
    (hist_productive_dispatch row) (hist_first_time_fix row) false None
  = Returns (py_min (of_Z 100)
               (of_Z 0 + distance_points + duration_points
                + productive_points + ftf_points)%num).
Proof.
  reflexivity.
Qed.

(** ** Any table of intervals, any number type *)

(** X19. Whatever the table of a [DispatchBusinessRules] object holds, with
    gaps or overlaps, and at every number type: the category returned is the
    label of the first entry, in the order of the table, whose interval
    [min_val <= value < max_val] holds the value, and it is the default
    exactly when no entry does. *)
Theorem first_category_first_interval (T : Type) (N : Num T)
    (items : dict (T * bound T)) (value : T) (default : string) :
  let holds (entry : string * (T * bound T)) :=
    (fst (snd entry) <=? value)%num && lt_bound value (snd (snd entry)) in
  (exists before category min_val max_val after,
     items = (before ++ (category, (min_val, max_val)) :: after)%list
     /\ Forall (fun entry => holds entry = false) before
     /\ holds (category, (min_val, max_val)) = true
     /\ first_category items value default = category)
  \/ (Forall (fun entry => holds entry = false) items
      /\ first_category items value default = default).
Proof.
  cbv zeta. induction items as [| [category [min_val max_val]] rest IH].
  - right. split; [constructor | reflexivity].
  - cbn [first_category].
    destruct ((min_val <=? value)%num && lt_bound value max_val) eqn:Hholds.
    + left. exists [], category, min_val, max_val, rest.
      repeat split; [constructor | exact Hholds].
    + destruct IH as [(before & c & lo & hi & after & -> & Hbefore & Hin & Hresult)
                     | [Hnone Hresult]].
      * left. exists ((category, (min_val, max_val)) :: before), c, lo, hi, after.
        repeat split; [constructor; assumption | exact Hin | exact Hresult].
      * right. split; [constructor; assumption | exact Hresult].
Qed.

Lemma skill_term_spec_le (skill : option R) :
  skill_term_spec skill <= skill_term_spec (Some 1).
Proof.
  unfold skill_term_spec. destruct skill as [v |]; r_cases.
Qed.

(** X20. All else equal, a skill match never lowers the rule-based
    probability: the probability of a row with [skill_match = 1] is at least
    that of the same row with any other value of the field, or without it. *)
Theorem rule_probability_skill_match_helps (skill w d : option R)
    (prio ticket : option string) :
  exists p_match p_other : R,
    calculate_rule_based_probability (init R)
      {| skill_match := Some 1; workload_ratio := w; distance := d;
         priority := prio; ticket_type := ticket |} = Returns p_match
    /\ calculate_rule_based_probability (init R)
         {| skill_match := skill; workload_ratio := w; distance := d;
            priority := prio; ticket_type := ticket |} = Returns p_other
    /\ p_other <= p_match.
Proof.
  do 2 eexists.
  split; [apply calculate_rule_based_probability_returns |].
  split; [apply calculate_rule_based_probability_returns |].
  cbn [skill_match workload_ratio distance priority ticket_type].
  unfold rule_probability_spec. apply clip_unit_spec_monotone.
  pose proof (skill_term_spec_le skill). lra.
Qed.

(** ** Rounding in IEEE 754 binary64

    Where the exact value is a bound, rounding can step over it: the blend
    of 0.11 with 0.11 at weight 0.7 is above both inputs, and the duration
    scores of 1 and of the next double are equal.  The saturated values of
    the duration score are exact. *)
Example float_blend_above_inputs :
  blend_probabilities (T := float) (ratio 11 100) (ratio 11 100) (ratio 7 10)
    = Returns (PrimFloat.next_up (ratio 11 100))
  /\ PrimFloat.ltb (ratio 11 100) (PrimFloat.next_up (ratio 11 100)) = true.
Proof. vm_compute. split; reflexivity. Qed.

Example float_duration_score_plateau :
  PrimFloat.ltb 1 (PrimFloat.next_up 1) = true
  /\ duration_score (T := float) 1%float = duration_score (PrimFloat.next_up 1).
Proof. vm_compute. split; reflexivity. Qed.

Example float_duration_score_saturated :
  duration_score (T := float) (PrimFloat.next_down (of_Z (-30))) = 36%float
  /\ duration_score (T := float) (of_Z (-1000000000)) = 36%float
  /\ duration_score (T := float) (PrimFloat.next_up (of_Z 90)) = 0%float
  /\ duration_score (T := float) (of_Z 1000000000) = 0%float.
Proof. vm_compute. repeat split. Qed.

(** ** make_predictions in IEEE 754 binary64

    Two rows at the default weight: the ideal row with a model probability of
    0.2 and a predicted duration of 80 minutes for 60 expected, and the
    challenging row with a model probability of 0.9. *)
Example float_make_predictions :
  exists r : Predictions float,
    make_predictions (fun _ => "20")
      [ ({| features := ideal_row float; dispatch_expected_duration := of_Z 60 |},
         {| ml_success_prediction := 0%Z; ml_success_probability := ratio 2 10;
            duration_prediction := of_Z 80 |});
        ({| features := challenging_row float; dispatch_expected_duration := of_Z 60 |},
         {| ml_success_prediction := 1%Z; ml_success_probability := ratio 9 10;
            duration_prediction := of_Z 50 |}) ]
      (ratio 7 10) true = Returns r
    /\ col_success_prediction r = [1%Z; 0%Z]
    /\ col_recommendation r = ["PROCEED WITH CAUTION (Warning: +20 min)"; "DO NOT PROCEED"]
    /\ col_confidence r = ["Medium"; "Very Low"]
    /\ col_duration_difference r = [20%float; (-10)%float].
Proof.
  eexists. split; [vm_compute; reflexivity |].
  repeat split.
Qed.

Example float_explanation_factors :
  exists factors : list string,
    explanation_factors (fun _ => "p") (fun _ => "s") (fun _ => "w") (fun _ => "d")
      (init float) (ideal_row float) = Returns factors
    /\ List.length factors = 6%nat.
Proof.
  eexists. split; [vm_compute; reflexivity |]. reflexivity.
Qed.

(** ** Rows with None cells: what raises and what returns *)

Lemma first_category_cell_value {T : Type} `{Num T} (items : dict (T * bound T))
    (x : T) (default : string) :
  first_category_cell items (Value x) default =
  Returns (first_category items x default).
Proof.
  induction items as [| [category [min_val max_val]] rest IH]; cbn.
  - reflexivity.
  - destruct ((min_val <=? x)%num && lt_bound x max_val); [reflexivity | exact IH].
Qed.

Lemma skill_cell_agrees (c : option (cell R)) :
  cell_is_one (row_get c (Value (of_Z 0))) =
  (row_get (option_map number_of_cell c) (of_Z 0) ==? of_Z 1)%num.
Proof.
  destruct c as [[x |] |]; cbn [row_get option_map number_of_cell cell_is_one];
    try reflexivity.
  num_R. r_cases.
Qed.

Lemma number_cell_agrees (c : option (cell R)) (default : R) :
  c <> Some NoneCell ->
  row_get c (Value default) = Value (row_get (option_map number_of_cell c) default).
Proof.
  intros Hc. destruct c as [[x |] |]; [reflexivity | contradiction Hc | reflexivity];
    reflexivity.
Qed.

Lemma priority_cell_agrees (c : option (cell string)) :
  dict_get_cell (priority_adjustments (init R)) (row_get c (Value "Normal")) (ratio 0 10) =
  dict_get (priority_adjustments (init R))
    (row_get (option_map text_key_of_cell c) "Normal") (ratio 0 10).
Proof.
  destruct c as [[k |] |]; reflexivity.
Qed.

Lemma ticket_type_cell_agrees (c : option (cell string)) :
  dict_get_cell (ticket_type_adjustments (init R)) (row_get c (Value "Order")) (ratio 0 10) =
  dict_get (ticket_type_adjustments (init R))
    (row_get (option_map text_key_of_cell c) "Order") (ratio 0 10).
Proof.
  destruct c as [[k |] |]; reflexivity.
Qed.

(** Without a [None] in the workload and distance cells, the function on
    cells is the function on numbers and texts. *)
Lemma cells_agree (row : CellRow R) :
  ~ has_none_cell row ->
  calculate_rule_based_probability_cells (init R) row =
  calculate_rule_based_probability (init R) (typed_row row).
Proof.
  intros Hnone. unfold has_none_cell in Hnone.
  unfold calculate_rule_based_probability_cells, calculate_rule_based_probability,
    get_workload_category, get_distance_category.
  cbn [typed_row skill_match workload_ratio distance priority ticket_type].
  rewrite skill_cell_agrees, priority_cell_agrees, ticket_type_cell_agrees.
  rewrite (number_cell_agrees (cell_workload_ratio row)) by tauto.
  rewrite (number_cell_agrees (cell_distance row)) by tauto.
  rewrite !first_category_cell_value. cbn [bind]. reflexivity.
Qed.

(** With one, the comparison in the category loop raises. *)
Lemma cells_raise (row : CellRow R) :
  has_none_cell row ->
  calculate_rule_based_probability_cells (init R) row = Raises TypeError.
Proof.
  intros Hnone. unfold has_none_cell in Hnone.
  unfold calculate_rule_based_probability_cells.
  destruct (cell_workload_ratio row) as [[w |] |] eqn:Hw;
    cbn [row_get]; [| reflexivity |].
  - destruct Hnone as [Hn | Hd]; [discriminate Hn |].
    rewrite first_category_cell_value. cbn [bind].
    change (first_category (workload_thresholds (init R)) w "medium")
      with (get_workload_category (init R) w).
    rewrite workload_adjustment_lookup. cbn [bind].
    rewrite Hd. reflexivity.
  - destruct Hnone as [Hn | Hd]; [discriminate Hn |].
    rewrite first_category_cell_value. cbn [bind].
    change (first_category (workload_thresholds (init R)) (ratio 5 10) "medium")
      with (get_workload_category (init R) (ratio 5 10)).
    rewrite workload_adjustment_lookup. cbn [bind].
    rewrite Hd. reflexivity.
Qed.

(** The first row that raises ends the call. *)
Lemma apply_rows_raises {A B : Type} (f : A -> outcome B) (e : exn) (df : list A) :
  (forall row, (exists b, f row = Returns b) \/ f row = Raises e) ->
  Exists (fun row => f row = Raises e) df ->
  apply_rows f df = Raises e.
Proof.
  intros Hf Hex. induction df as [| row rest IH]; [inversion Hex |].
  cbn [apply_rows]. destruct (Hf row) as [[b Hb] | Hraise].
  - rewrite Hb. cbn [bind]. rewrite IH; [reflexivity |].
    inversion Hex as [? ? Hhead | ? ? Htail]; subst; [| exact Htail].
    rewrite Hb in Hhead. discriminate Hhead.
  - rewrite Hraise. reflexivity.
Qed.

Lemma has_none_cell_dec (row : CellRow R) : has_none_cell row \/ ~ has_none_cell row.
Proof.
  unfold has_none_cell.
  destruct (cell_workload_ratio row) as [[w |] |];
    destruct (cell_distance row) as [[d |] |];
    try (left; tauto);
    right; intros [Hn | Hn]; discriminate Hn.
Qed.

(** X4. On a frame whose cells are values, [None] or absent,
    [calculate_probabilities] raises [TypeError] exactly when some row holds
    [None] in its workload_ratio or distance cell; otherwise it returns one
    probability per row, in the order of the rows, each the value of
    [calculate_rule_based_probability] on its row and each in [0,1].  A
    [None] in the skill, priority or ticket-type cell never raises. *)
Theorem calculate_probabilities_outcome (df : list (CellRow R)) :
  (Forall (fun row => ~ has_none_cell row) df ->
   exists probabilities : list R,
     calculate_probabilities_cells (init R) df = Returns probabilities
     /\ List.length probabilities = List.length df
     /\ Forall2 (fun row p =>
                   calculate_rule_based_probability_cells (init R) row = Returns p)
          df probabilities
     /\ Forall (fun p => 0 <= p <= 1) probabilities)
  /\ (Exists has_none_cell df ->
      calculate_probabilities_cells (init R) df = Raises TypeError).
Proof.
  split.
  - intros Hclean. rewrite Forall_forall in Hclean.
    exists (map (fun row =>
                   let r := typed_row row in
                   rule_probability_spec (skill_match r) (workload_ratio r)
                     (row_get (distance r) 50) (priority r) (ticket_type r)) df).
    assert (Hrow : forall row, In row df ->
              calculate_rule_based_probability_cells (init R) row =
              Returns (let r := typed_row row in
                       rule_probability_spec (skill_match r) (workload_ratio r)
                         (row_get (distance r) 50) (priority r) (ticket_type r))).
    { intros row Hin. rewrite cells_agree by (apply Hclean; exact Hin).
      apply calculate_rule_based_probability_returns. }
    split; [| split; [apply length_map | split]].
    + unfold calculate_probabilities_cells.
      clear Hclean. induction df as [| row rest IH]; [reflexivity |].
      cbn [apply_rows map]. rewrite Hrow by (left; reflexivity). cbn [bind].
      rewrite IH by (intros r Hr; apply Hrow; right; exact Hr). reflexivity.
    + clear Hclean. induction df as [| row rest IH]; cbn [map]; constructor.
      * apply Hrow. left. reflexivity.
      * apply IH. intros r Hr. apply Hrow. right. exact Hr.
    + apply Forall_map, Forall_forall. intros row _. cbv zeta.
      apply clip_unit_spec_range.
  - intros Hex. unfold calculate_probabilities_cells.
    apply apply_rows_raises.
    + intros row. destruct (has_none_cell_dec row) as [Hnone | Hclean].
      * right. apply cells_raise. exact Hnone.
      * left. eexists. rewrite cells_agree by exact Hclean.
        apply calculate_rule_based_probability_returns.
    + apply Exists_exists. apply Exists_exists in Hex.
      destruct Hex as (row & Hin & Hnone).
      exists row. split; [exact Hin | apply cells_raise; exact Hnone].
Qed.






(** In binary64: a [None] workload cell raises, a [None] skill or priority
    cell does not. *)
Example float_none_cells :
  calculate_rule_based_probability_cells (init float)
    {| cell_skill_match := Some (Value (of_Z 1));
       cell_workload_ratio := Some NoneCell;
       cell_distance := Some (Value (of_Z 15));
       cell_priority := Some (Value "Normal");
       cell_ticket_type := Some (Value "Order") |} = Raises TypeError
  /\ exists p : float,
       calculate_rule_based_probability_cells (init float)
         {| cell_skill_match := Some NoneCell;
            cell_workload_ratio := Some (Value (ratio 12 10));
            cell_distance := Some (Value (of_Z 150));
            cell_priority := Some NoneCell;
            cell_ticket_type := None |} = Returns p
       /\ PrimFloat.ltb (ratio 4 100) p = true
       /\ PrimFloat.ltb p (ratio 6 100) = true.
Proof.
  split; [vm_compute; reflexivity |].
  eexists. split; [vm_compute; reflexivity |].
  split; vm_compute; reflexivity.
Qed.
